(** * Project-Task-APIs: timer lifecycle, dashboard aggregation and cache

    A shallow embedding of [project/models.py], [project/enum.py] and the
    three function views of [project/api/api.py] ([start_timer],
    [stop_timer], [dashboard_overview]), with the properties the
    specification states about them.

    Conventions of the embedding
    - a [datetime] is a [Z]: microseconds since the epoch; a [timedelta] is a
      [Z]: microseconds (both have microsecond resolution in Python);
    - a UUID is its canonical text (what [str(uuid)] and an f-string give);
    - a database table is the list of its rows;
    - the clock reading [timezone.now()] and the identifier drawn by
      [uuid.uuid4] are explicit inputs of the operation that uses them;
    - Python exceptions are the left summand of [result]. *)

From Stdlib Require Import ZArith Lia.
From stdpp Require Import gmap strings list fin_maps sorting pretty.

Local Open Scope Z_scope.

(** ** project/enum.py *)

Inductive Status := TODO | IN_PROGRESS | DONE.

#[global] Instance Status_eq_dec : EqDecision Status.
Proof. solve_decision. Defined.

(** The database value of each member ([Status.TODO == 'todo'], ...). *)
Definition Status_value (s : Status) : string :=
  match s with
  | TODO => "todo"
  | IN_PROGRESS => "in_progress"
  | DONE => "done"
  end.

(** [Status.choices]: the (value, label) pairs in declaration order. *)
Definition Status_choices : list (string * string) :=
  [("todo", "Todo"); ("in_progress", "In Progress"); ("done", "Done")]%string.

(** ** project/models.py: rows of the three tables *)

Abbreviation UUID := string (only parsing).
Abbreviation datetime := Z (only parsing).
Abbreviation timedelta := Z (only parsing).

Record Project := mkProject {
  project_id : UUID;
  project_title : string;
  project_description : string;
  project_created : datetime
}.

Record Task := mkTask {
  task_id : UUID;
  task_project : UUID;
  task_title : string;
  task_status : Status;
  estimated_time : timedelta;
  spent_time : timedelta
}.

(** The assignments [task.status = s] and [task.spent_time = d] on the
    object in memory. *)
Definition with_status (s : Status) (t : Task) : Task :=
  mkTask (task_id t) (task_project t) (task_title t) s
         (estimated_time t) (spent_time t).

Definition with_spent_time (d : timedelta) (t : Task) : Task :=
  mkTask (task_id t) (task_project t) (task_title t) (task_status t)
         (estimated_time t) d.

Record TimeEntry := mkTimeEntry {
  entry_id : UUID;
  entry_task : UUID;
  start_time : datetime;
  end_time : option datetime;
  duration : option timedelta
}.

(** [created] is the column of [TimeStampedModel] that [Project.Meta.ordering]
    sorts on; the other columns of the base model (is_deleted, metadata,
    status of [ActivatorModel], modified) are read by none of the views
    below and are left out, as are [created] of tasks and entries. *)

(** A table is the list of its rows, in storage order. *)
Record DB := mkDB {
  projects : list Project;
  tasks : list Task;
  time_entries : list TimeEntry
}.

(** ** Exceptions *)

Inductive Exc :=
  | DoesNotExist
  | MultipleObjectsReturned
  | IntegrityError
  | TypeError.

Definition result (A : Type) : Type := Exc + A.

Definition ok {A} (a : A) : result A := inr a.
Definition raise {A} (e : Exc) : result A := inl e.

#[global] Instance result_bind : MBind result :=
  fun A B f m => match m with inl e => inl e | inr a => f a end.

(** ** Formatting of durations *)

Definition us_per_second : Z := 1000000.

(** [int(duration.total_seconds())]: [total_seconds] divides the number of
    microseconds by 10^6 and [int] truncates towards zero.  The float that
    Python computes in between is exact enough for this below 2^53
    microseconds (about 285 years), the range [exact_range] names. *)
Definition int_total_seconds (d : timedelta) : Z := Z.quot d us_per_second.


(** The format specification [02d]: decimal, sign first, zero-padded to a
    width of two characters. *)
Definition fmt_02d (n : Z) : string :=
  if n <? 0 then "-" +:+ pretty (Z.to_N (- n))
  else
    let s := pretty (Z.to_N n) in
    if (String.length s <? 2)%nat then "0" +:+ s else s.

(** [format_duration], the closure inside [dashboard_overview]
    (api.py 518-524).  [not duration] holds for [None] and for the zero
    [timedelta]; [divmod] and [//] floor. *)
Definition format_duration (duration : option timedelta) : string :=
  match duration with
  | None => "00:00"
  | Some d =>
      if d =? 0 then "00:00"
      else
        let total_seconds := int_total_seconds d in
        let hours := total_seconds `div` 3600 in
        let remainder := total_seconds `mod` 3600 in
        let minutes := remainder `div` 60 in
        fmt_02d hours +:+ ":" +:+ fmt_02d minutes
  end.

(** The format in the words of the specification: the whole hours in
    decimal, zero-padded to at least two digits, a colon, and the remaining
    whole minutes zero-padded to two digits. *)
Definition minute : timedelta := 60 * us_per_second.
Definition hour : timedelta := 3600 * us_per_second.





(** ** The ORM calls of the views *)

(** [Task.objects.select_for_update().get(id=task_id)]: exactly one row
    must match. *)
Definition Task_get (db : DB) (id : UUID) : result Task :=
  match filter (fun t => task_id t = id) (tasks db) with
  | [] => raise DoesNotExist
  | [t] => ok t
  | _ => raise MultipleObjectsReturned
  end.

(** [task.time_entries.filter(end_time__isnull=True)] *)
Definition active_entries (db : DB) (t : Task) : list TimeEntry :=
  filter (fun e => entry_task e = task_id t ∧ end_time e = None)
         (time_entries db).

(** [Task.has_active_timer] (models.py 88-91): [.exists()] *)
Definition has_active_timer (db : DB) (t : Task) : bool :=
  match active_entries db t with
  | [] => false
  | _ :: _ => true
  end.

(** [.first()] of a query set ordered by [-start_time]
    ([TimeEntry.Meta.ordering]): the row with the greatest start time, the
    earliest stored one among equals. *)
Fixpoint first_by_start_time_desc (l : list TimeEntry) : option TimeEntry :=
  match l with
  | [] => None
  | e :: l' =>
      match first_by_start_time_desc l' with
      | Some e' => if start_time e <? start_time e' then Some e' else Some e
      | None => Some e
      end
  end.

(** [Task.active_timer] (models.py 93-96) *)
Definition active_timer (db : DB) (t : Task) : option TimeEntry :=
  first_by_start_time_desc (active_entries db t).

Definition set_time_entries (db : DB) (rows : list TimeEntry) : DB :=
  mkDB (projects db) (tasks db) rows.

Definition set_tasks (db : DB) (rows : list Task) : DB :=
  mkDB (projects db) rows (time_entries db).

(** The constraint [unique_active_timer_per_task]: a row with a null
    [end_time] may not be written next to another such row of the same task. *)
Definition violates_unique_active_timer
    (rows : list TimeEntry) (e : TimeEntry) : bool :=
  bool_decide (end_time e = None ∧
               Exists (fun r => entry_id r ≠ entry_id e ∧
                                entry_task r = entry_task e ∧
                                end_time r = None) rows).

(** The foreign key of [TimeEntry.task]. *)
Definition task_exists (db : DB) (id : UUID) : bool :=
  bool_decide (Exists (fun t => task_id t = id) (tasks db)).

(** [models.Model.save] for a [TimeEntry]: UPDATE the rows whose primary key
    is that of the object, INSERT when there is none. *)
Definition Model_save_TimeEntry (db : DB) (e : TimeEntry) : result DB :=
  if violates_unique_active_timer (time_entries db) e then raise IntegrityError
  else if negb (task_exists db (entry_task e)) then raise IntegrityError
  else if bool_decide (Exists (fun r => entry_id r = entry_id e) (time_entries db))
  then ok (set_time_entries db
             (map (fun r => if decide (entry_id r = entry_id e) then e else r)
                  (time_entries db)))
  else ok (set_time_entries db (time_entries db ++ [e])).

(** The body of the override [TimeEntry.save] before it calls
    [super().save] (models.py 133-134).  A [datetime] is always truthy, and
    [start_time] is not nullable, so the test is on [end_time] alone. *)
Definition TimeEntry_set_duration (e : TimeEntry) : TimeEntry :=
  match end_time e with
  | Some en =>
      mkTimeEntry (entry_id e) (entry_task e) (start_time e) (end_time e)
                  (Some (en - start_time e))
  | None => e
  end.

(** [TimeEntry.save] (models.py 131-135): the object as the call leaves it,
    and the database. *)
Definition TimeEntry_save (db : DB) (e : TimeEntry) : result (TimeEntry * DB) :=
  let e' := TimeEntry_set_duration e in
  db' ← Model_save_TimeEntry db e';
  ok (e', db').

(** [TimeEntry.objects.create(task=task, start_time=start)]: a new object
    with the drawn primary key, saved with [force_insert]. *)
Definition TimeEntry_objects_create
    (db : DB) (new_id : UUID) (t : Task) (start : datetime)
    : result (TimeEntry * DB) :=
  let e := mkTimeEntry new_id (task_id t) start None None in
  if bool_decide (Exists (fun r => entry_id r = new_id) (time_entries db))
  then raise IntegrityError
  else TimeEntry_save db e.

(** [task.save(update_fields=['status'])] *)
Definition Task_save_status (db : DB) (t : Task) : DB :=
  set_tasks db
    (map (fun r => if decide (task_id r = task_id t)
                   then with_status (task_status t) r else r)
         (tasks db)).

(** [task.save(update_fields=['spent_time'])] *)
Definition Task_save_spent_time (db : DB) (t : Task) : DB :=
  set_tasks db
    (map (fun r => if decide (task_id r = task_id t)
                   then with_spent_time (spent_time t) r else r)
         (tasks db)).

(** ** Responses and the cache *)

Definition HTTP_200_OK : Z := 200.
Definition HTTP_201_CREATED : Z := 201.
Definition HTTP_400_BAD_REQUEST : Z := 400.
Definition HTTP_404_NOT_FOUND : Z := 404.
Definition HTTP_500_INTERNAL_SERVER_ERROR : Z := 500.

(** [TimeEntrySerializer(entry).data], without [created]. *)
Record TimeEntryData := mkTimeEntryData {
  data_id : UUID;
  data_start_time : datetime;
  data_end_time : option datetime;
  data_duration : option timedelta;
  data_is_active : bool
}.

(** [TimeEntry.is_active] (models.py 137-140) *)
Definition is_active (e : TimeEntry) : bool :=
  match end_time e with None => true | Some _ => false end.

Definition TimeEntrySerializer_data (e : TimeEntry) : TimeEntryData :=
  mkTimeEntryData (entry_id e) (start_time e) (end_time e) (duration e)
                  (is_active e).

Record ProjectTime := mkProjectTime {
  pt_project_id : string;
  pt_project_title : string;
  pt_spent_time : string
}.

(** The dictionary [data] that [dashboard_overview] builds (api.py 561-569);
    [date_range_filter] is [None] when the key is not set. *)
Record DashboardData := mkDashboardData {
  task_counts : gmap string nat;
  total_estimated_time : string;
  total_spent_time : string;
  time_spent_per_project : list ProjectTime;
  date_range_filter : option (gmap string string)
}.

Inductive Body :=
  | ErrorBody (error : string)
  | TimeEntryBody (e : TimeEntryData)
  | DashboardBody (d : DashboardData).

Record Response := mkResponse {
  data : Body;
  status : Z
}.

(** The only values the views store in the cache are dashboard payloads.
    An entry lives until its expiry time. *)
Record CacheEntry := mkCacheEntry {
  cached : DashboardData;
  expires : datetime
}.

Abbreviation Cache := (gmap string CacheEntry).

Definition cache_get (c : Cache) (now : datetime) (key : string)
    : option DashboardData :=
  match c !! key with
  | Some en => if now <? expires en then Some (cached en) else None
  | None => None
  end.

(** [cache.set(key, value, timeout)], the timeout in seconds. *)
Definition cache_set (c : Cache) (now : datetime) (key : string)
    (value : DashboardData) (timeout : Z) : Cache :=
  <[key := mkCacheEntry value (now + timeout * us_per_second)]> c.

Definition cache_delete (c : Cache) (key : string) : Cache := delete key c.

(** The state the views act on. *)
Definition State : Type := DB * Cache.

(** ** The timer views *)

(** The two [cache.delete] calls of [start_timer] and [stop_timer]
    (api.py 296-298 and 375-377).  [task.project.id] is the foreign key
    column of the task. *)
Definition clear_relevant_cache (c : Cache) (t : Task) : Cache :=
  let c1 := cache_delete c "dashboard_metrics" in
  cache_delete c1 ("project_" +:+ task_project t +:+ "_metrics").

(** The [try] block of [start_timer] (api.py 276-301). *)
Definition start_timer_try (db : DB) (c : Cache) (now : datetime)
    (new_id tid : UUID) : result (Response * State) :=
  task ← Task_get db tid;
  if has_active_timer db task
  then ok (mkResponse (ErrorBody "Task already has an active timer")
                      HTTP_400_BAD_REQUEST, (db, c))
  else
    '(time_entry, db1) ← TimeEntry_objects_create db new_id task now;
    let db2 :=
      match task_status task with
      | TODO =>
          Task_save_status db1 (with_status IN_PROGRESS task)
      | _ => db1
      end in
    let c' := clear_relevant_cache c task in
    ok (mkResponse (TimeEntryBody (TimeEntrySerializer_data time_entry))
                   HTTP_201_CREATED, (db2, c')).

(** The [except] clauses shared by the two views: the transaction has
    written nothing when one of the modelled exceptions is raised. *)
Definition handle (st : State)
    (r : result (Response * State)) : Response * State :=
  match r with
  | inr out => out
  | inl DoesNotExist =>
      (mkResponse (ErrorBody "Task not found") HTTP_404_NOT_FOUND, st)
  | inl _ =>
      (mkResponse (ErrorBody "Internal server error")
                  HTTP_500_INTERNAL_SERVER_ERROR, st)
  end.

(** [start_timer] (api.py 270-313) *)
Definition start_timer (st : State) (now : datetime) (new_id tid : UUID)
    : Response * State :=
  handle st (start_timer_try (fst st) (snd st) now new_id tid).

(** The [try] block of [stop_timer] (api.py 355-380).  [active2] is the
    object as [save] leaves it; its duration is set because its end time
    is, so the addition to [task.spent_time] never meets [None]. *)
Definition stop_timer_try (db : DB) (c : Cache) (now : datetime)
    (tid : UUID) : result (Response * State) :=
  task ← Task_get db tid;
  match active_timer db task with
  | None =>
      ok (mkResponse (ErrorBody "No active timer found for this task")
                     HTTP_400_BAD_REQUEST, (db, c))
  | Some active =>
      let end_time_ := now in
      let active1 :=
        mkTimeEntry (entry_id active) (entry_task active) (start_time active)
                    (Some end_time_) (Some (end_time_ - start_time active)) in
      '(active2, db1) ← TimeEntry_save db active1;
      match duration active2 with
      | None => raise TypeError
      | Some d =>
          let db2 :=
            Task_save_spent_time db1
              (with_spent_time (spent_time task + d) task) in
          let c' := clear_relevant_cache c task in
          ok (mkResponse (TimeEntryBody (TimeEntrySerializer_data active2))
                         HTTP_200_OK, (db2, c'))
      end
  end.

(** [stop_timer] (api.py 349-392) *)
Definition stop_timer (st : State) (now : datetime) (tid : UUID)
    : Response * State :=
  handle st (stop_timer_try (fst st) (snd st) now tid).

(** ** The dashboard view *)

(** [Sum] of a column over a query set: SQL's SUM is NULL over no rows. *)
Definition Sum (l : list Z) : option Z :=
  match l with
  | [] => None
  | _ :: _ => Some (foldr Z.add 0 l)
  end.

(** [Sum] of a nullable column: NULLs are skipped. *)
Definition Sum_nullable (l : list (option Z)) : option Z := Sum (omap id l).

(** [total or timedelta()] *)
Definition or_zero (total : option timedelta) : timedelta := default 0 total.

(** [str] of a query parameter inside an f-string. *)
Definition py_str (o : option string) : string := default "None"%string o.

(** A query parameter that is truthy: present and not empty. *)
Definition truthy_value (o : option string) : option string :=
  match o with
  | Some s => if bool_decide (s = EmptyString) then None else Some s
  | None => None
  end.

Definition truthy (o : option string) : bool :=
  match truthy_value o with Some _ => true | None => false end.

(** [dict.setdefault] *)
Definition setdefault {V} (k : string) (v : V) (m : gmap string V) : gmap string V :=
  match m !! k with
  | Some _ => m
  | None => <[k := v]> m
  end.

(** [dict(tasks_qs.values('status').annotate(count=Count('id'))
          .values_list('status', 'count'))]: one key per status that occurs,
    with the number of its tasks. *)
Definition count_by_status (ts : list Task) : gmap string nat :=
  foldr (fun t m =>
           let k := Status_value (task_status t) in
           <[k := S (default 0%nat (m !! k))]> m)
        ∅ ts.

(** The loop over [Status.choices] (api.py 507-509). *)
Definition fill_missing_statuses (m : gmap string nat) : gmap string nat :=
  foldl (fun m choice => setdefault (fst choice) 0%nat m) m Status_choices.

(** [Project.Meta.ordering = ['-created']] *)
Definition created_desc (p q : Project) : Prop :=
  project_created q ≤ project_created p.

#[global] Instance created_desc_dec : RelDecision created_desc.
Proof. intros p q. unfold created_desc. apply _. Defined.

(** [Project.objects.all()], in the order of the model. *)
Definition Project_objects_all (db : DB) : list Project :=
  merge_sort created_desc (projects db).

Definition set_date (k : string) (v : option string) (m : gmap string string)
    : gmap string string :=
  match v with
  | Some s => <[k := s]> m
  | None => m
  end.

Section Dashboard.

(** [datetime.strptime(s, '%Y-%m-%d').date()] as a day number, [None] for
    the [ValueError] of a text that is not a date in that format. *)
Variable strptime_date : string -> option Z.

(** The [__date] transform: the calendar day, as a day number, of a
    timestamp in the current time zone. *)
Variable date_of : datetime -> Z.

(** The [time_entries_qs] after the two optional filters
    (api.py 470-498); an exception carries the 400 response. *)
Definition filter_entries (db : DB) (start_date end_date : option string)
    : Response + list TimeEntry :=
  let qs0 := time_entries db in
  match (match truthy_value start_date with
         | Some s =>
             match strptime_date s with
             | Some d => inr (filter (fun e => d ≤ date_of (start_time e)) qs0)
             | None =>
                 inl (mkResponse
                        (ErrorBody "Invalid start_date format. Use YYYY-MM-DD")
                        HTTP_400_BAD_REQUEST)
             end
         | None => inr qs0
         end) with
  | inl r => inl r
  | inr qs1 =>
      match truthy_value end_date with
      | Some s =>
          match strptime_date s with
          | Some d => inr (filter (fun e => date_of (start_time e) ≤ d) qs1)
          | None =>
              inl (mkResponse
                     (ErrorBody "Invalid end_date format. Use YYYY-MM-DD")
                     HTTP_400_BAD_REQUEST)
          end
      | None => inr qs1
      end
  end.

(** The dictionary [date_filter] (api.py 473, 480, 493). *)
Definition date_filter (start_date end_date : option string)
    : gmap string string :=
  set_date "end_date" (truthy_value end_date)
    (set_date "start_date" (truthy_value start_date) ∅).

(** [time_entries_qs.filter(task__project=project, end_time__isnull=False)
      .aggregate(total=Sum('duration'))['total']]: the join of the entries
    with their task. *)
Definition project_entries_total (db : DB) (qs : list TimeEntry)
    (project : Project) : option timedelta :=
  Sum_nullable
    (e ← qs;
     t ← tasks db;
     if bool_decide (task_id t = entry_task e ∧
                     task_project t = project_id project ∧
                     end_time e ≠ None)
     then [duration e] else []).

(** [Project.objects.annotate(spent_time_sum=Sum('tasks__spent_time'))]
    for one project. *)
Definition spent_time_sum (db : DB) (project : Project) : option timedelta :=
  Sum (spent_time <$>
         filter (fun t => task_project t = project_id project) (tasks db)).

(** What [dashboard_overview] computes on a cache miss (api.py 467-569):
    a 400 response or the dictionary [data]. *)
Definition dashboard_data (db : DB) (start_date end_date : option string)
    : Response + DashboardData :=
  match filter_entries db start_date end_date with
  | inl r => inl r
  | inr time_entries_qs =>
      let tasks_qs := tasks db in
      let task_counts := fill_missing_statuses (count_by_status tasks_qs) in
      let total_estimated := Sum (estimated_time <$> tasks_qs) in
      let total_spent := Sum (spent_time <$> tasks_qs) in
      let project_time_data :=
        if truthy start_date || truthy end_date
        then
          (fun project =>
             let total_duration :=
               or_zero (project_entries_total db time_entries_qs project) in
             mkProjectTime (project_id project) (project_title project)
                           (format_duration (Some total_duration)))
            <$> Project_objects_all db
        else
          (fun project =>
             mkProjectTime (project_id project) (project_title project)
                           (format_duration (spent_time_sum db project)))
            <$> Project_objects_all db in
      let df := date_filter start_date end_date in
      inr (mkDashboardData task_counts
             (format_duration total_estimated)
             (format_duration total_spent)
             project_time_data
             (if bool_decide (df = ∅) then None else Some df))
  end.

(** The key under which [dashboard_overview] looks its result up and
    stores it (api.py 461). *)
Definition cache_key (start_date end_date : option string) : string :=
  "dashboard_metrics_" +:+ py_str start_date +:+ "_" +:+ py_str end_date.

(** [dashboard_overview] (api.py 450-582).  A cached dictionary is never
    empty, so [if cached_data] is the test for a hit;
    [DashboardSerializer(data).data] has the content of [data]. *)
Definition dashboard_overview (st : State) (now : datetime)
    (start_date end_date : option string) : Response * State :=
  let key := cache_key start_date end_date in
  match cache_get (snd st) now key with
  | Some cached_data => (mkResponse (DashboardBody cached_data) HTTP_200_OK, st)
  | None =>
      match dashboard_data (fst st) start_date end_date with
      | inl r => (r, st)
      | inr d =>
          (mkResponse (DashboardBody d) HTTP_200_OK,
           (fst st, cache_set (snd st) now key d 300))
      end
  end.

End Dashboard.

(** ** The aggregates in the words of the specification *)



(** A day lies within the bounds that are given, both inclusive. *)
Definition in_range (lo hi : option Z) (day : Z) : Prop :=
  from_option (fun l => l <= day) True lo /\
  from_option (fun h => day <= h) True hi.

#[global] Instance in_range_dec lo hi day : Decision (in_range lo hi day).
Proof. unfold in_range. destruct lo, hi; cbn; apply _. Defined.

(** The entry belongs to a task of the project. *)
Definition entry_in_project (db : DB) (project : Project) (e : TimeEntry)
    : Prop :=
  Exists (fun t => task_id t = entry_task e /\
                   task_project t = project_id project) (tasks db).

Section Range.

Variable strptime_date : string -> option Z.
Variable date_of : datetime -> Z.

(** The bound a query parameter gives, if it gives one. *)
Definition parse_bound (o : option string) : option Z :=
  truthy_value o ≫= strptime_date.

(** The sum of the durations of the entries of a project that are stopped
    and whose start day lies within the bounds. *)
Definition spec_range_total (db : DB) (lo hi : option Z) (project : Project)
    : timedelta :=
  foldr Z.add 0
    (omap duration
       (filter (fun e => in_range lo hi (date_of (start_time e)) /\
                         end_time e ≠ None /\
                         entry_in_project db project e)
               (time_entries db))).

End Range.

(** ** Sequences of requests *)

(** The three views as requests; [StartTimer] carries the primary key that
    [uuid.uuid4] draws for the new entry. *)
Inductive Op :=
  | StartTimer (new_id tid : UUID)
  | StopTimer (tid : UUID)
  | DashboardOverview (start_date end_date : option string).

Section Run.

Variable strptime_date : string -> option Z.
Variable date_of : datetime -> Z.

(** One request, served at the clock reading [now]. *)
Definition step (st : State) (now : datetime) (op : Op) : Response * State :=
  match op with
  | StartTimer new_id tid => start_timer st now new_id tid
  | StopTimer tid => stop_timer st now tid
  | DashboardOverview start_date end_date =>
      dashboard_overview strptime_date date_of st now start_date end_date
  end.

(** Requests served one after the other (each view runs in its own
    transaction under the row lock of its task). *)
Fixpoint run (st : State) (ops : list (datetime * Op))
    : list Response * State :=
  match ops with
  | [] => ([], st)
  | (now, op) :: ops' =>
      let '(r, st1) := step st now op in
      let '(rs, st2) := run st1 ops' in
      (r :: rs, st2)
  end.

End Run.






(** Every stopped row has the duration its two times give. *)
Definition durations_consistent (rows : list TimeEntry) : Prop :=
  forall r en, r ∈ rows -> end_time r = Some en ->
               duration r = Some (en - start_time r).

(** ** Sample rows, after the fixtures of [project/tests/conftest.py] *)

Definition sample_project : Project :=
  mkProject "p-1" "Test Project" "A sample project" 0.

Definition sample_task : Task :=
  mkTask "t-1" "p-1" "Test Task" TODO (2 * hour) 0.

Definition active_time_entry : TimeEntry :=
  mkTimeEntry "e-1" "t-1" 1000 None None.

(** The entry of the fixture with an end time an hour after its start and a
    duration assigned by hand that does not fit
    (cf. [test_timeentry_duration_calculation]). *)
Definition ended_time_entry : TimeEntry :=
  mkTimeEntry "e-1" "t-1" 1000 (Some (1000 + hour)) (Some 7).

(** A project with one task, no entry. *)
Definition sample_db : DB := mkDB [sample_project] [sample_task] [].

(** The same with a running timer on the task. *)
Definition sample_db_active : DB :=
  mkDB [sample_project] [sample_task] [active_time_entry].

(** A stand-in for [strptime]: it knows the two dates of the examples of
    the API schema (as day numbers) and rejects every other text. *)
Definition sample_strptime_date (s : string) : option Z :=
  if bool_decide (s = "2025-08-01"%string) then Some 20301
  else if bool_decide (s = "2025-08-30"%string) then Some 20330
  else None.

(** The [__date] transform in UTC. *)
Definition utc_date_of (t : datetime) : Z := t `div` (24 * hour).

(** Two rounds of start and stop on the sample task, a dashboard call in
    between. *)
Definition sample_ops : list (datetime * Op) :=
  [(1000, StartTimer "e-1" "t-1");
   (1000 + hour, StopTimer "t-1");
   (1000 + hour + minute, DashboardOverview None None);
   (1000 + 2 * hour, StartTimer "e-2" "t-1");
   (1000 + 2 * hour + 30 * minute, StopTimer "t-1")].

(** Two projects with a task each.  The first task has an entry stopped
    after an hour on 2025-08-01, a running entry started on 2025-08-10 and
    an entry stopped after two hours on 2025-09-09; the second task has an
    entry stopped after half an hour on 2025-08-30. *)
Definition day (n : Z) : datetime := n * (24 * hour).

Definition range_db : DB :=
  mkDB
    [sample_project; mkProject "p-2" "Website Redesign" "New layout" 50]
    [mkTask "t-1" "p-1" "Test Task" IN_PROGRESS (2 * hour) (3 * hour);
     mkTask "t-2" "p-2" "Layout" IN_PROGRESS hour (30 * minute)]
    [mkTimeEntry "e-1" "t-1" (day 20301) (Some (day 20301 + hour)) (Some hour);
     mkTimeEntry "e-2" "t-1" (day 20310) None None;
     mkTimeEntry "e-3" "t-1" (day 20340) (Some (day 20340 + 2 * hour))
                 (Some (2 * hour));
     mkTimeEntry "e-4" "t-2" (day 20330 + 23 * hour)
                 (Some (day 20330 + 23 * hour + 30 * minute))
                 (Some (30 * minute))].

(** An unfiltered dashboard request on the sample database, then a start
    and, a minute later, a stop of the timer of the sample task: the states
    after each of the three requests. *)
Definition after_dashboard : State :=
  snd (dashboard_overview sample_strptime_date utc_date_of
         (sample_db, ∅) 1000 None None).

Definition after_start : State :=
  snd (start_timer after_dashboard 2000 "e-1" "t-1").

Definition after_stop : State :=
  snd (stop_timer after_start (2000 + minute) "t-1").
(** ** Invariants of the tables *)

(** The constraint [unique_active_timer_per_task] (models.py 119-125) as a
    property of the table: no task has two rows with a null end time. *)
Definition single_active_timer (rows : list TimeEntry) : Prop :=
  forall tid,
    (length (filter (fun e => entry_task e = tid ∧ end_time e = None) rows)
     <= 1)%nat.

(** The primary key of the entries. *)
Definition unique_entry_ids (rows : list TimeEntry) : Prop :=
  NoDup (entry_id <$> rows).

(** The order in which [Status] lists its members. *)
Definition Status_rank (s : Status) : nat :=
  match s with
  | TODO => 0
  | IN_PROGRESS => 1
  | DONE => 2
  end.

(** The sum of the durations of the stopped entries of a task. *)
Definition stopped_total (rows : list TimeEntry) (tid : UUID) : timedelta :=
  foldr Z.add 0
    (omap duration
       (filter (fun e => entry_task e = tid ∧ end_time e ≠ None) rows)).

(** The spent time of every task is the sum of the durations of its
    stopped entries. *)
Definition ledger_consistent (db : DB) : Prop :=
  forall t, t ∈ tasks db -> spent_time t = stopped_total (time_entries db) (task_id t).

(** The database a successful [start_timer] leaves (api.py 286-294). *)
Definition started (db : DB) (t : Task) (new_id : UUID) (now : datetime) : DB :=
  let db1 :=
    set_time_entries db
      (time_entries db ++ [mkTimeEntry new_id (task_id t) now None None]) in
  match task_status t with
  | TODO => Task_save_status db1 (with_status IN_PROGRESS t)
  | _ => db1
  end.

(** The entry a successful [stop_timer] writes (api.py 366-369). *)
Definition stopped_entry (a : TimeEntry) (now : datetime) : TimeEntry :=
  mkTimeEntry (entry_id a) (entry_task a) (start_time a)
              (Some now) (Some (now - start_time a)).

(** The database a successful [stop_timer] leaves (api.py 366-373). *)
Definition stopped (db : DB) (t : Task) (a : TimeEntry) (now : datetime) : DB :=
  Task_save_spent_time
    (set_time_entries db
       (map (fun r => if decide (entry_id r = entry_id a)
                      then stopped_entry a now else r)
            (time_entries db)))
    (with_spent_time (spent_time t + (now - start_time a)) t).

(** What the views never write of a task. *)
Definition task_fixed_part (t : Task) : UUID * UUID * string * timedelta :=
  (task_id t, task_project t, task_title t, estimated_time t).

(** The one move of a status that the views make. *)
Definition status_step (s s' : Status) : Prop :=
  s' = s \/ (s = TODO /\ s' = IN_PROGRESS).

(** What one row adds to [stopped_total]. *)
Definition stopped_part (tid : UUID) (e : TimeEntry) : timedelta :=
  if decide (entry_task e = tid ∧ end_time e ≠ None)
  then default 0 (duration e) else 0.

(** ** The derived fields of a project (models.py 30-47) *)

(** [project.tasks]: the reverse side of [Task.project]. *)
Definition Project_tasks (db : DB) (p : Project) : list Task :=
  filter (fun t => task_project t = project_id p) (tasks db).

(** [Project.task_count] *)
Definition Project_task_count (db : DB) (p : Project) : nat :=
  length (Project_tasks db p).

(** [Project.total_estimated_time] *)
Definition Project_total_estimated_time (db : DB) (p : Project) : timedelta :=
  or_zero (Sum (estimated_time <$> Project_tasks db p)).

(** [Project.total_spent_time] *)
Definition Project_total_spent_time (db : DB) (p : Project) : timedelta :=
  or_zero (Sum (spent_time <$> Project_tasks db p)).

(** ** project/api/serializers.py *)

(** The four lines that [get_estimated_time_hours], [get_spent_time_hours],
    [get_total_estimated_time_hours] and [get_total_spent_time_hours]
    share (serializers.py 53-56, 60-63, 96-99, 103-106), as do the two
    display methods of [TaskAdmin] (admin.py 56-59, 64-67). *)
Definition hours_minutes (d : timedelta) : string :=
  let total_seconds := int_total_seconds d in
  let hours := total_seconds `div` 3600 in
  let remainder := total_seconds `mod` 3600 in
  let minutes := remainder `div` 60 in
  fmt_02d hours +:+ ":" +:+ fmt_02d minutes.



(** [ProjectSerializer.get_total_estimated_time_hours] and
    [get_total_spent_time_hours] *)
Definition get_total_estimated_time_hours (db : DB) (obj : Project) : string :=
  hours_minutes (Project_total_estimated_time db obj).


(** The two keys that [TimeEntrySerializer.validate] reads of [attrs]. *)
Record TimeEntryAttrs := mkTimeEntryAttrs {
  attrs_start_time : option datetime;
  attrs_end_time : option datetime
}.

(** [TimeEntrySerializer.validate] (serializers.py 20-30): the message of
    the [ValidationError], or the attributes. *)
Definition TimeEntrySerializer_validate (attrs : TimeEntryAttrs)
    : string + TimeEntryAttrs :=
  match attrs_end_time attrs, attrs_start_time attrs with
  | Some end_time_, Some start_time_ =>
      if end_time_ <=? start_time_
      then inl "End time must be after start time."%string
      else inr attrs
  | _, _ => inr attrs
  end.

(** ** Creation of a task (api.py 186-194) *)

(** [serializer.validated_data] of [TaskCreateUpdateSerializer]: [status]
    and [estimated_time] may be left to the defaults of the model;
    [spent_time] is read-only and never part of it.  (The description is
    not among the columns of [Task] here.) *)
Record TaskData := mkTaskData {
  vd_project_id : UUID;
  vd_title : string;
  vd_status : option Status;
  vd_estimated_time : option timedelta
}.

(** What [perform_create] raises: the [ValidationError] of its [except]
    clause, with its field and message, or an exception it lets through. *)
Inductive CreateError :=
  | ValidationError (field message : string)
  | Raised (e : Exc).

(** [Project.objects.get(id=project_id)] *)
Definition Project_get (db : DB) (id : UUID) : result Project :=
  match filter (fun p => project_id p = id) (projects db) with
  | [] => raise DoesNotExist
  | [p] => ok p
  | _ => raise MultipleObjectsReturned
  end.

(** [TaskListCreateView.perform_create]: [serializer.save(project=project)]
    inserts a task with the drawn primary key and the defaults of the model
    for what the data leaves out. *)
Definition perform_create (db : DB) (new_id : UUID) (validated_data : TaskData)
    : CreateError + Task * DB :=
  match Project_get db (vd_project_id validated_data) with
  | inl DoesNotExist => inl (ValidationError "project_id" "Project not found.")
  | inl e => inl (Raised e)
  | inr project =>
      let task :=
        mkTask new_id (project_id project) (vd_title validated_data)
               (default TODO (vd_status validated_data))
               (default 0 (vd_estimated_time validated_data)) 0 in
      if bool_decide (Exists (fun t => task_id t = new_id) (tasks db))
      then inl (Raised IntegrityError)
      else inr (task, set_tasks db (tasks db ++ [task]))
  end.

(** The foreign key of the entries holds in the database. *)
Definition entries_reference_tasks (db : DB) : Prop :=
  forall e, e ∈ time_entries db -> task_exists db (entry_task e) = true.

(** * Properties *)

(** ** Lookup of a task and the two row updates *)

Lemma Task_get_ok db id t :
  Task_get db id = ok t ->
  filter (fun r => task_id r = id) (tasks db) = [t].
Proof.
  unfold Task_get. destruct (filter _ (tasks db)) as [|t0 [|t1 l]]; try discriminate.
  unfold ok. intros [= ->]. reflexivity.
Qed.

Lemma Task_get_id db id t : Task_get db id = ok t -> task_id t = id.
Proof.
  intros H. apply Task_get_ok in H.
  assert (Hin : t ∈ filter (fun r => task_id r = id) (tasks db))
    by (rewrite H; apply list_elem_of_here).
  apply list_elem_of_filter in Hin. tauto.
Qed.

Lemma Task_get_elem db id t : Task_get db id = ok t -> t ∈ tasks db.
Proof.
  intros H. apply Task_get_ok in H.
  assert (Hin : t ∈ filter (fun r => task_id r = id) (tasks db))
    by (rewrite H; apply list_elem_of_here).
  apply list_elem_of_filter in Hin. tauto.
Qed.

(** An update of the rows with one primary key, which keeps the keys,
    commutes with the selection of a key. *)
Lemma filter_update_rows (upd : Task -> Task) (key id : UUID) (l : list Task) :
  (forall r, task_id (upd r) = task_id r) ->
  filter (fun r => task_id r = id)
         (map (fun r => if decide (task_id r = key) then upd r else r) l)
  = map (fun r => if decide (task_id r = key) then upd r else r)
        (filter (fun r => task_id r = id) l).
Proof.
  intros Hid. induction l as [|r l IH]; [reflexivity|].
  cbn [map]. rewrite !filter_cons.
  destruct (decide (task_id r = key)) as [Hk|Hk].
  - rewrite Hid. destruct (decide (task_id r = id)).
    + cbn [map]. rewrite decide_True by exact Hk. f_equal. exact IH.
    + exact IH.
  - destruct (decide (task_id r = id)).
    + cbn [map]. rewrite decide_False by exact Hk. f_equal. exact IH.
    + exact IH.
Qed.

Lemma Task_get_update_rows (upd : Task -> Task) (key id : UUID) db rows :
  (forall r, task_id (upd r) = task_id r) ->
  rows = map (fun r => if decide (task_id r = key) then upd r else r) (tasks db) ->
  Task_get (set_tasks db rows) id =
  match Task_get db id with
  | inr t => ok (if decide (task_id t = key) then upd t else t)
  | inl e => inl e
  end.
Proof.
  intros Hid ->. unfold Task_get. cbn [tasks set_tasks].
  rewrite filter_update_rows by exact Hid.
  destruct (filter _ (tasks db)) as [|t0 [|t1 l]]; reflexivity.
Qed.

Lemma Task_get_save_status db t id :
  Task_get (Task_save_status db t) id =
  match Task_get db id with
  | inr r => ok (if decide (task_id r = task_id t)
                 then with_status (task_status t) r else r)
  | inl e => inl e
  end.
Proof.
  unfold Task_save_status.
  apply (Task_get_update_rows (with_status (task_status t))); reflexivity.
Qed.

Lemma Task_get_save_spent_time db t id :
  Task_get (Task_save_spent_time db t) id =
  match Task_get db id with
  | inr r => ok (if decide (task_id r = task_id t)
                 then with_spent_time (spent_time t) r else r)
  | inl e => inl e
  end.
Proof.
  unfold Task_save_spent_time.
  apply (Task_get_update_rows (with_spent_time (spent_time t))); reflexivity.
Qed.

(** Saving an entry leaves the task table alone. *)
Lemma Model_save_TimeEntry_tasks db e db' :
  Model_save_TimeEntry db e = ok db' -> tasks db' = tasks db.
Proof.
  unfold Model_save_TimeEntry.
  repeat case_match; try discriminate; unfold ok; intros [= <-]; reflexivity.
Qed.

Lemma TimeEntry_save_inv db e e' db' :
  TimeEntry_save db e = ok (e', db') ->
  e' = TimeEntry_set_duration e /\
  Model_save_TimeEntry db (TimeEntry_set_duration e) = ok db'.
Proof.
  unfold TimeEntry_save.
  destruct (Model_save_TimeEntry db (TimeEntry_set_duration e)) as [x|d] eqn:E;
    cbn; [discriminate|].
  unfold ok. intros [= <- <-]. split; reflexivity.
Qed.

Lemma Task_get_congr db db' id :
  tasks db' = tasks db -> Task_get db' id = Task_get db id.
Proof. unfold Task_get. intros ->. reflexivity. Qed.

(** ** Active timers *)

Lemma first_by_start_time_desc_None l :
  first_by_start_time_desc l = None <-> l = [].
Proof.
  split; [|intros ->; reflexivity].
  destruct l as [|e l]; [reflexivity|]. cbn.
  destruct (first_by_start_time_desc l); [case_match|]; discriminate.
Qed.

Lemma first_by_start_time_desc_elem l e :
  first_by_start_time_desc l = Some e -> e ∈ l.
Proof.
  revert e. induction l as [|x l IH]; intros e; cbn; [discriminate|].
  destruct (first_by_start_time_desc l) as [e'|].
  - case_match; intros [= <-].
    + right. apply IH. reflexivity.
    + left.
  - intros [= <-]. left.
Qed.

Lemma active_timer_Some db t e :
  active_timer db t = Some e ->
  e ∈ time_entries db /\ entry_task e = task_id t /\ end_time e = None.
Proof.
  intros H. apply first_by_start_time_desc_elem in H.
  unfold active_entries in H. apply list_elem_of_filter in H. tauto.
Qed.

Lemma has_active_timer_true db t :
  has_active_timer db t = true <->
  exists e, e ∈ time_entries db /\ entry_task e = task_id t /\ end_time e = None.
Proof.
  unfold has_active_timer. split.
  - destruct (active_entries db t) as [|e l] eqn:E; [discriminate|].
    intros _. exists e.
    assert (Hin : e ∈ active_entries db t) by (rewrite E; left).
    unfold active_entries in Hin. apply list_elem_of_filter in Hin. tauto.
  - intros (e & Hin & Ht & Hn).
    assert (Hf : e ∈ active_entries db t).
    { unfold active_entries. apply list_elem_of_filter. tauto. }
    destruct (active_entries db t); [inversion Hf | reflexivity].
Qed.

Lemma active_timer_has db t :
  has_active_timer db t = false <-> active_timer db t = None.
Proof.
  unfold has_active_timer, active_timer.
  rewrite first_by_start_time_desc_None.
  destruct (active_entries db t); split; congruence.
Qed.

(** ** Inversion of the two timer views *)

Lemma handle_ok st (out : Response * State) : handle st (ok out) = out.
Proof. reflexivity. Qed.

Lemma handle_raise_status st e :
  status (fst (handle st (raise e))) = HTTP_404_NOT_FOUND \/
  status (fst (handle st (raise e))) = HTTP_500_INTERNAL_SERVER_ERROR.
Proof. destruct e; cbn; auto. Qed.

Lemma handle_raise_state st e : snd (handle st (raise e)) = st.
Proof. destruct e; reflexivity. Qed.

Lemma TimeEntry_objects_create_inv db new_id t start e db' :
  TimeEntry_objects_create db new_id t start = ok (e, db') ->
  e = mkTimeEntry new_id (task_id t) start None None /\
  ¬ Exists (fun r => entry_id r = new_id) (time_entries db) /\
  time_entries db' = time_entries db ++ [e] /\
  tasks db' = tasks db /\ projects db' = projects db.
Proof.
  unfold TimeEntry_objects_create. case_bool_decide as Hfresh; [discriminate|].
  intros H. apply TimeEntry_save_inv in H as [-> H]. cbn in H.
  unfold Model_save_TimeEntry in H. cbn [entry_id] in H.
  rewrite (bool_decide_eq_false_2 _ Hfresh) in H.
  repeat case_match; try discriminate.
  unfold ok in H. injection H as <-. cbn. auto.
Qed.

Lemma bind_ok {A B} (f : A -> result B) (a : A) : (ok a ≫= f) = f a.
Proof. reflexivity. Qed.

Lemma bind_raise {A B} (f : A -> result B) (e : Exc) :
  (@raise A e ≫= f) = raise e.
Proof. reflexivity. Qed.

(** A response of the [except] clauses has neither of the success codes. *)
Ltac raised H Hs :=
  rewrite bind_raise in H;
  apply (f_equal (fun p => status (fst p))) in H;
  match type of H with
  | context [raise ?x] => destruct x
  end;
  cbn [handle raise fst status] in H; rewrite Hs in H; cbv in H; discriminate.

Lemma start_timer_created db c now new_id tid r st' :
  start_timer (db, c) now new_id tid = (r, st') ->
  status r = HTTP_201_CREATED ->
  exists t e db1,
    Task_get db tid = ok t /\
    has_active_timer db t = false /\
    TimeEntry_objects_create db new_id t now = ok (e, db1) /\
    r = mkResponse (TimeEntryBody (TimeEntrySerializer_data e)) HTTP_201_CREATED /\
    st' = (match task_status t with
           | TODO => Task_save_status db1 (with_status IN_PROGRESS t)
           | _ => db1
           end, clear_relevant_cache c t).
Proof.
  unfold start_timer, start_timer_try. cbn [fst snd]. intros H Hs.
  destruct (Task_get db tid) as [x|t] eqn:Eg.
  { change (inl x) with (@raise Task x) in H. raised H Hs. }
  change (inr t) with (ok t) in H. rewrite bind_ok in H.
  destruct (has_active_timer db t) eqn:Ea.
  { rewrite handle_ok in H. injection H as <- <-. discriminate. }
  destruct (TimeEntry_objects_create db new_id t now) as [x|[e db1]] eqn:Ec.
  { change (inl x) with (@raise (TimeEntry * DB) x) in H. raised H Hs. }
  change (inr (e, db1)) with (ok (e, db1)) in H. rewrite bind_ok in H.
  rewrite handle_ok in H. injection H as <- <-. exists t, e, db1. auto.
Qed.

Lemma stop_timer_stopped db c now tid r st' :
  stop_timer (db, c) now tid = (r, st') ->
  status r = HTTP_200_OK ->
  exists t a db1,
    Task_get db tid = ok t /\
    active_timer db t = Some a /\
    let a' := mkTimeEntry (entry_id a) (entry_task a) (start_time a)
                          (Some now) (Some (now - start_time a)) in
    Model_save_TimeEntry db a' = ok db1 /\
    r = mkResponse (TimeEntryBody (TimeEntrySerializer_data a')) HTTP_200_OK /\
    st' = (Task_save_spent_time db1
             (with_spent_time (spent_time t + (now - start_time a)) t),
           clear_relevant_cache c t).
Proof.
  unfold stop_timer, stop_timer_try. cbn [fst snd]. intros H Hs.
  destruct (Task_get db tid) as [x|t] eqn:Eg.
  { change (inl x) with (@raise Task x) in H. raised H Hs. }
  change (inr t) with (ok t) in H. rewrite bind_ok in H.
  destruct (active_timer db t) as [a|] eqn:Ea; cycle 1.
  { rewrite handle_ok in H. injection H as <- <-. discriminate. }
  cbv zeta in H.
  destruct (TimeEntry_save db _) as [x|[a2 db1]] eqn:Es in H.
  { change (inl x) with (@raise (TimeEntry * DB) x) in H. raised H Hs. }
  apply TimeEntry_save_inv in Es as [-> Hm].
  change (inr ?p) with (ok p) in H. rewrite bind_ok in H.
  cbn [TimeEntry_set_duration end_time start_time duration entry_id entry_task] in H, Hm.
  rewrite handle_ok in H. injection H as <- <-. exists t, a, db1. auto.
Qed.

(** ** The guards of the timer views *)

(** C2. For a task that has an active timer (a time entry of the task with
    a null end time), [start_timer] answers with the error "Task already has
    an active timer" (status 400, the code the view gives to this conflict)
    and leaves the database and the cache as they were: no entry is created
    and the task keeps its status and spent time. *)
Theorem start_timer_active_timer_rejected db c now new_id tid t :
  Task_get db tid = ok t ->
  (exists e, e ∈ time_entries db /\ entry_task e = tid /\ end_time e = None) ->
  start_timer (db, c) now new_id tid =
    (mkResponse (ErrorBody "Task already has an active timer")
                HTTP_400_BAD_REQUEST, (db, c)).
Proof.
  intros Hg (e & Hin & Ht & Hn).
  assert (Ha : has_active_timer db t = true).
  { apply has_active_timer_true. exists e.
    rewrite (Task_get_id _ _ _ Hg). auto. }
  unfold start_timer, start_timer_try. cbn [fst snd].
  rewrite Hg, bind_ok, Ha. reflexivity.
Qed.

Lemma start_timer_active_timer_rejected_witness :
  start_timer (sample_db_active, ∅) 5000 "e-2" "t-1" =
    (mkResponse (ErrorBody "Task already has an active timer")
                HTTP_400_BAD_REQUEST, (sample_db_active, ∅)).
Proof.
  apply (start_timer_active_timer_rejected sample_db_active ∅ 5000 "e-2" "t-1"
           sample_task).
  - reflexivity.
  - exists active_time_entry. split; [apply list_elem_of_here|].
    split; reflexivity.
Defined.

(** C3. For a task without an active timer (none of its time entries has a
    null end time), [stop_timer] answers 400 Bad Request, "No active timer
    found for this task", and leaves the database and the cache as they
    were: no end time is set and the spent time is not modified. *)
Theorem stop_timer_no_active_timer_rejected db c now tid t :
  Task_get db tid = ok t ->
  (forall e, e ∈ time_entries db -> entry_task e = tid -> end_time e <> None) ->
  stop_timer (db, c) now tid =
    (mkResponse (ErrorBody "No active timer found for this task")
                HTTP_400_BAD_REQUEST, (db, c)).
Proof.
  intros Hg Hnone.
  assert (Ha : active_timer db t = None).
  { destruct (active_timer db t) as [a|] eqn:E; [|reflexivity].
    apply active_timer_Some in E as (Hin & Ht & Hn).
    rewrite (Task_get_id _ _ _ Hg) in Ht. destruct (Hnone a Hin Ht Hn). }
  unfold stop_timer, stop_timer_try. cbn [fst snd].
  rewrite Hg, bind_ok, Ha. reflexivity.
Qed.

Lemma stop_timer_no_active_timer_rejected_witness :
  stop_timer (sample_db, ∅) 5000 "t-1" =
    (mkResponse (ErrorBody "No active timer found for this task")
                HTTP_400_BAD_REQUEST, (sample_db, ∅)).
Proof.
  apply (stop_timer_no_active_timer_rejected sample_db ∅ 5000 "t-1" sample_task).
  - reflexivity.
  - intros e Hin. inversion Hin.
Defined.

(** ** Status of the task *)

Lemma with_status_same t : with_status (task_status t) t = t.
Proof. destruct t; reflexivity. Qed.

(** C6. A successful [start_timer] (201) moves the status of its task from
    todo to in_progress and leaves a status of in_progress or done as it
    was; nothing else of the task changes.  So the new status is in_progress
    exactly when the old one was todo or already in_progress, and a status
    is never moved back. *)
Theorem start_timer_status db c now new_id tid r db' c' :
  start_timer (db, c) now new_id tid = (r, (db', c')) ->
  status r = HTTP_201_CREATED ->
  exists t t',
    Task_get db tid = ok t /\ Task_get db' tid = ok t' /\
    (task_status t = TODO -> t' = with_status IN_PROGRESS t) /\
    (task_status t <> TODO -> t' = t) /\
    (task_status t' <> task_status t <-> task_status t = TODO).
Proof.
  intros H Hs.
  apply start_timer_created in H as (t & e & db1 & Hg & _ & Hc & _ & Hst); [|exact Hs].
  injection Hst as -> _.
  apply TimeEntry_objects_create_inv in Hc as (_ & _ & _ & Htasks & _).
  assert (Hg1 : Task_get db1 tid = ok t)
    by (rewrite (Task_get_congr _ _ _ Htasks); exact Hg).
  destruct (task_status t) eqn:Est.
  - exists t, (with_status IN_PROGRESS t).
    split; [exact Hg|]. split.
    + rewrite Task_get_save_status, Hg1. cbv [ok].
      destruct (decide _) as [_|n]; [reflexivity | destruct n; reflexivity].
    + split; [reflexivity|]. split; [congruence|].
      cbn. rewrite Est. split; [reflexivity|discriminate].
  - exists t, t. repeat split; try (exact Hg || exact Hg1 || congruence).
  - exists t, t. repeat split; try (exact Hg || exact Hg1 || congruence).
Qed.

Lemma start_timer_status_witness :
  exists t t',
    Task_get sample_db "t-1" = ok t /\
    Task_get (fst (snd (start_timer (sample_db, ∅) 5000 "e-1" "t-1"))) "t-1"
      = ok t' /\
    (task_status t = TODO -> t' = with_status IN_PROGRESS t) /\
    (task_status t <> TODO -> t' = t) /\
    (task_status t' <> task_status t <-> task_status t = TODO).
Proof.
  apply (start_timer_status sample_db ∅ 5000 "e-1" "t-1"
           (fst (start_timer (sample_db, ∅) 5000 "e-1" "t-1"))
           _ (snd (snd (start_timer (sample_db, ∅) 5000 "e-1" "t-1")))).
  - vm_compute. reflexivity.
  - vm_compute. reflexivity.
Defined.

(** [stop_timer] never writes the status. *)
Lemma stop_timer_status db c now tid r db' c' id t :
  stop_timer (db, c) now tid = (r, (db', c')) ->
  Task_get db id = ok t ->
  exists t', Task_get db' id = ok t' /\ task_status t' = task_status t.
Proof.
  intros H Hg.
  destruct (decide (status r = HTTP_200_OK)) as [Hs|Hs].
  - apply stop_timer_stopped in H as (t0 & a & db1 & Hg0 & _ & Hm & _ & Hst);
      [|exact Hs].
    injection Hst as -> _.
    apply Model_save_TimeEntry_tasks in Hm.
    rewrite Task_get_save_spent_time, (Task_get_congr _ _ _ Hm), Hg. cbv [ok].
    eexists. split; [reflexivity|]. case_decide; reflexivity.
  - exists t. split; [|reflexivity].
    unfold stop_timer, stop_timer_try in H. cbn [fst snd] in H.
    destruct (Task_get db tid) as [x|t0] eqn:Eg.
    { change (inl x) with (@raise Task x) in H. rewrite bind_raise in H.
      apply (f_equal snd) in H. rewrite handle_raise_state in H.
      cbn in H. injection H as <- _. exact Hg. }
    change (inr t0) with (ok t0) in H. rewrite bind_ok in H.
    destruct (active_timer db t0) as [a|] eqn:Ea; cycle 1.
    { rewrite handle_ok in H. injection H as _ <- _. exact Hg. }
    cbv zeta in H.
    destruct (TimeEntry_save db _) as [x|[a2 db1]] eqn:Es in H.
    { change (inl x) with (@raise (TimeEntry * DB) x) in H.
      rewrite bind_raise in H.
      apply (f_equal snd) in H. rewrite handle_raise_state in H.
      cbn in H. injection H as <- _. exact Hg. }
    apply TimeEntry_save_inv in Es as [-> Hm].
    change (inr ?p) with (ok p) in H. rewrite bind_ok in H.
    cbn [TimeEntry_set_duration end_time start_time duration] in H.
    rewrite handle_ok in H. injection H as <- _ _. destruct Hs. reflexivity.
Qed.

(** ** What a save stores *)

(** After a save the rows that carry the primary key of the object are the
    object, there is such a row, and every other row was there before. *)
Lemma Model_save_TimeEntry_rows db e db' :
  Model_save_TimeEntry db e = ok db' ->
  e ∈ time_entries db' /\
  (forall r, r ∈ time_entries db' -> entry_id r = entry_id e -> r = e) /\
  (forall r, r ∈ time_entries db' -> entry_id r <> entry_id e ->
             r ∈ time_entries db).
Proof.
  unfold Model_save_TimeEntry.
  destruct (violates_unique_active_timer _ _); [discriminate|].
  destruct (negb _); [discriminate|].
  case_bool_decide as Hex; unfold ok; intros [= <-]; cbn [time_entries set_time_entries].
  - split; [|split].
    + apply Exists_exists in Hex as (r & Hin & Hid).
      apply list_elem_of_In, in_map_iff. exists r.
      rewrite decide_True by exact Hid. split; [reflexivity|].
      apply list_elem_of_In. exact Hin.
    + intros r Hin Hid. apply list_elem_of_In, in_map_iff in Hin as (r0 & <- & _).
      destruct (decide (entry_id r0 = entry_id e)); [reflexivity|contradiction].
    + intros r Hin Hid. apply list_elem_of_In, in_map_iff in Hin as (r0 & <- & Hin).
      destruct (decide (entry_id r0 = entry_id e)); [contradiction|].
      apply list_elem_of_In. exact Hin.
  - split; [|split].
    + apply elem_of_app. right. apply list_elem_of_here.
    + intros r Hin Hid. apply elem_of_app in Hin as [Hin|Hin].
      * destruct Hex. apply Exists_exists. exists r. auto.
      * apply list_elem_of_singleton in Hin. exact Hin.
    + intros r Hin Hid. apply elem_of_app in Hin as [Hin|Hin]; [exact Hin|].
      apply list_elem_of_singleton in Hin. congruence.
Qed.


Lemma Task_save_status_entries db t :
  time_entries (Task_save_status db t) = time_entries db.
Proof. reflexivity. Qed.

(** C4. After a successful [stop_timer] (200) the entry that was the active
    timer of the task has the clock reading as its end time and a duration
    of exactly end time minus start time, in the response and in every
    stored row with its primary key; that duration is not negative when the
    clock reading is at or after the start time of the entry. *)
Theorem stop_timer_duration db c now tid r db' c' :
  stop_timer (db, c) now tid = (r, (db', c')) ->
  status r = HTTP_200_OK ->
  exists t a b,
    Task_get db tid = ok t /\ active_timer db t = Some a /\
    data r = TimeEntryBody b /\
    data_id b = entry_id a /\ data_start_time b = start_time a /\
    data_end_time b = Some now /\
    data_duration b = Some (now - start_time a) /\
    (exists e, e ∈ time_entries db' /\ entry_id e = entry_id a) /\
    (forall e, e ∈ time_entries db' -> entry_id e = entry_id a ->
       start_time e = start_time a /\ end_time e = Some now /\
       duration e = Some (now - start_time a)) /\
    (start_time a <= now -> 0 <= now - start_time a).
Proof.
  intros H Hs.
  apply stop_timer_stopped in H as (t & a & db1 & Hg & Ha & Hm & -> & Hst);
    [|exact Hs].
  injection Hst as -> _.
  apply Model_save_TimeEntry_rows in Hm as (Hin & Hsame & _).
  cbn [entry_id] in Hsame.
  exists t, a, (TimeEntrySerializer_data
                  (mkTimeEntry (entry_id a) (entry_task a) (start_time a)
                               (Some now) (Some (now - start_time a)))).
  repeat (split; [first [exact Hg | exact Ha | reflexivity]|]).
  split; [|split].
  - eexists. split; [exact Hin|reflexivity].
  - intros e He Hid. rewrite (Hsame e He Hid). auto.
  - lia.
Qed.

Lemma stop_timer_duration_witness :
  exists t a b,
    Task_get sample_db_active "t-1" = ok t /\
    active_timer sample_db_active t = Some a /\
    data (fst (stop_timer (sample_db_active, ∅) (1000 + hour) "t-1"))
      = TimeEntryBody b /\
    data_id b = entry_id a /\ data_start_time b = start_time a /\
    data_end_time b = Some (1000 + hour) /\
    data_duration b = Some (1000 + hour - start_time a) /\
    (exists e,
       e ∈ time_entries
             (fst (snd (stop_timer (sample_db_active, ∅) (1000 + hour) "t-1"))) /\
       entry_id e = entry_id a) /\
    (forall e,
       e ∈ time_entries
             (fst (snd (stop_timer (sample_db_active, ∅) (1000 + hour) "t-1"))) ->
       entry_id e = entry_id a ->
       start_time e = start_time a /\ end_time e = Some (1000 + hour) /\
       duration e = Some (1000 + hour - start_time a)) /\
    (start_time a <= 1000 + hour -> 0 <= 1000 + hour - start_time a).
Proof.
  apply (stop_timer_duration sample_db_active ∅ (1000 + hour) "t-1"
           (fst (stop_timer (sample_db_active, ∅) (1000 + hour) "t-1"))
           _ (snd (snd (stop_timer (sample_db_active, ∅) (1000 + hour) "t-1")))).
  - vm_compute. reflexivity.
  - vm_compute. reflexivity.
Defined.

(** ** The duration a save stores *)

Lemma TimeEntry_set_duration_consistent e en :
  end_time (TimeEntry_set_duration e) = Some en ->
  duration (TimeEntry_set_duration e)
  = Some (en - start_time (TimeEntry_set_duration e)).
Proof.
  unfold TimeEntry_set_duration. destruct (end_time e) as [en'|] eqn:E.
  - cbn. intros [= ->]. reflexivity.
  - rewrite E. discriminate.
Qed.

Lemma Model_save_TimeEntry_consistent db e db' :
  Model_save_TimeEntry db e = ok db' ->
  (forall en, end_time e = Some en -> duration e = Some (en - start_time e)) ->
  durations_consistent (time_entries db) ->
  durations_consistent (time_entries db').
Proof.
  intros Hm He Hdb r en Hin Hen.
  apply Model_save_TimeEntry_rows in Hm as (_ & Hsame & Hother).
  destruct (decide (entry_id r = entry_id e)) as [Hid|Hid].
  - rewrite (Hsame r Hin Hid) in *. apply He. exact Hen.
  - apply Hdb; [apply Hother; assumption | exact Hen].
Qed.

(** C10. A save of a time entry whose end time is set stores, under the
    primary key of the entry, the entry with its duration replaced by end
    time minus start time, whatever duration the caller had assigned; and a
    save keeps the table in the state where every row with an end time has
    that duration, so every row that was persisted by [save] has it. *)
Theorem TimeEntry_save_duration db e e' db' :
  TimeEntry_save db e = ok (e', db') ->
  (forall en, end_time e = Some en ->
     let stored := mkTimeEntry (entry_id e) (entry_task e) (start_time e)
                               (Some en) (Some (en - start_time e)) in
     e' = stored /\ stored ∈ time_entries db' /\
     forall r, r ∈ time_entries db' -> entry_id r = entry_id e -> r = stored) /\
  (durations_consistent (time_entries db) ->
   durations_consistent (time_entries db')).
Proof.
  intros H. apply TimeEntry_save_inv in H as [-> Hm]. split.
  - intros en Hen stored.
    assert (Hs : TimeEntry_set_duration e = stored).
    { unfold TimeEntry_set_duration, stored. rewrite Hen. reflexivity. }
    rewrite Hs in *.
    apply Model_save_TimeEntry_rows in Hm as (Hin & Hsame & _).
    split; [reflexivity|]. split; [exact Hin|]. exact Hsame.
  - apply (Model_save_TimeEntry_consistent _ _ _ Hm).
    intros en. apply TimeEntry_set_duration_consistent.
Qed.

Lemma TimeEntry_save_duration_witness :
  let db' := mkDB [sample_project] [sample_task]
               [mkTimeEntry "e-1" "t-1" 1000 (Some (1000 + hour)) (Some hour)] in
  (forall en, end_time ended_time_entry = Some en ->
     let stored := mkTimeEntry "e-1" "t-1" 1000 (Some en) (Some (en - 1000)) in
     TimeEntry_set_duration ended_time_entry = stored /\
     stored ∈ time_entries db' /\
     forall r, r ∈ time_entries db' -> entry_id r = "e-1"%string -> r = stored) /\
  (durations_consistent (time_entries sample_db_active) ->
   durations_consistent (time_entries db')).
Proof.
  exact (TimeEntry_save_duration sample_db_active ended_time_entry
           (TimeEntry_set_duration ended_time_entry) _ eq_refl).
Defined.

(** ** Requests that fail change nothing *)

Lemma start_timer_failed st now new_id tid r st' :
  start_timer st now new_id tid = (r, st') ->
  status r <> HTTP_201_CREATED -> st' = st.
Proof.
  destruct st as [db c].
  unfold start_timer, start_timer_try. cbn [fst snd]. intros H Hs.
  destruct (Task_get db tid) as [x|t] eqn:Eg.
  { change (inl x) with (@raise Task x) in H. rewrite bind_raise in H.
    apply (f_equal snd) in H. rewrite handle_raise_state in H. auto. }
  change (inr t) with (ok t) in H. rewrite bind_ok in H.
  destruct (has_active_timer db t) eqn:Ea.
  { rewrite handle_ok in H. injection H as _ <-. reflexivity. }
  destruct (TimeEntry_objects_create db new_id t now) as [x|[e db1]] eqn:Ec.
  { change (inl x) with (@raise (TimeEntry * DB) x) in H. rewrite bind_raise in H.
    apply (f_equal snd) in H. rewrite handle_raise_state in H. auto. }
  change (inr (e, db1)) with (ok (e, db1)) in H. rewrite bind_ok in H.
  rewrite handle_ok in H. injection H as <- _. destruct Hs. reflexivity.
Qed.

Lemma stop_timer_failed st now tid r st' :
  stop_timer st now tid = (r, st') ->
  status r <> HTTP_200_OK -> st' = st.
Proof.
  destruct st as [db c].
  unfold stop_timer, stop_timer_try. cbn [fst snd]. intros H Hs.
  destruct (Task_get db tid) as [x|t] eqn:Eg.
  { change (inl x) with (@raise Task x) in H. rewrite bind_raise in H.
    apply (f_equal snd) in H. rewrite handle_raise_state in H. auto. }
  change (inr t) with (ok t) in H. rewrite bind_ok in H.
  destruct (active_timer db t) as [a|] eqn:Ea; cycle 1.
  { rewrite handle_ok in H. injection H as _ <-. reflexivity. }
  cbv zeta in H.
  destruct (TimeEntry_save db _) as [x|[a2 db1]] eqn:Es in H.
  { change (inl x) with (@raise (TimeEntry * DB) x) in H. rewrite bind_raise in H.
    apply (f_equal snd) in H. rewrite handle_raise_state in H. auto. }
  apply TimeEntry_save_inv in Es as [-> Hm].
  change (inr ?p) with (ok p) in H. rewrite bind_ok in H.
  cbn [TimeEntry_set_duration end_time start_time duration] in H.
  rewrite handle_ok in H. injection H as <- _. destruct Hs. reflexivity.
Qed.

Lemma dashboard_overview_db strptime_date date_of st now start_date end_date :
  fst (snd (dashboard_overview strptime_date date_of st now start_date end_date))
  = fst st.
Proof.
  unfold dashboard_overview.
  destruct (cache_get _ _ _); [reflexivity|].
  destruct (dashboard_data _ _ _ _ _); reflexivity.
Qed.

(** ** Accumulation of the spent time *)

Lemma Task_get_unique db id t t' :
  Task_get db id = ok t -> Task_get db id = ok t' -> t = t'.
Proof. intros H1 H2. rewrite H1 in H2. injection H2 as ->. reflexivity. Qed.


Section RunProperties.

Variable strptime_date : string -> option Z.
Variable date_of : datetime -> Z.

Abbreviation step' := (step strptime_date date_of).
Abbreviation run' := (run strptime_date date_of).







Lemma run_cons st now op ops :
  run' st ((now, op) :: ops) =
  (fst (step' st now op) :: fst (run' (snd (step' st now op)) ops),
   snd (run' (snd (step' st now op)) ops)).
Proof.
  cbn [run]. destruct (step' st now op) as [r st1].
  cbn [fst snd]. destruct (run' st1 ops). reflexivity.
Qed.




End RunProperties.


Example sample_run_spent_time :
  Task_get (fst (snd (run sample_strptime_date utc_date_of
                        (sample_db, ∅) sample_ops))) "t-1"
  = ok (mkTask "t-1" "p-1" "Test Task" IN_PROGRESS (2 * hour)
               (hour + 30 * minute)).
Proof. vm_compute. reflexivity. Qed.

(** ** The duration formatter *)













(** ** Task counts of the dashboard *)








#[global] Instance Status_value_inj : Inj (=) (=) Status_value.
Proof. intros [] []; cbn; congruence. Qed.




(** ** The dashboard on a cache miss *)

Lemma filter_all {A} (P : A -> Prop) `{!forall x, Decision (P x)} (l : list A) :
  (forall x, P x) -> filter P l = l.
Proof.
  intros Hall. induction l as [|x l IH]; [reflexivity|].
  rewrite filter_cons_True by apply Hall. f_equal. exact IH.
Qed.

Lemma or_zero_Sum l : or_zero (Sum l) = foldr Z.add 0 l.
Proof. destruct l; reflexivity. Qed.

Section DashboardProperties.

Variable strptime_date : string -> option Z.
Variable date_of : datetime -> Z.

Abbreviation parse_bound' := (parse_bound strptime_date).
Abbreviation dashboard_data' := (dashboard_data strptime_date date_of).
Abbreviation dashboard_overview' := (dashboard_overview strptime_date date_of).

(** The two optional filters select the entries whose start day lies
    within the bounds given; a text that is not a date gives 400. *)
Lemma filter_entries_spec db start_date end_date :
  match filter_entries strptime_date date_of db start_date end_date with
  | inl r => status r = HTTP_400_BAD_REQUEST
  | inr qs =>
      qs = filter (fun e => in_range (parse_bound' start_date)
                                     (parse_bound' end_date)
                                     (date_of (start_time e)))
                  (time_entries db)
  end.
Proof.
  unfold filter_entries, parse_bound.
  destruct (truthy_value start_date) as [s|]; cbn [mbind option_bind];
    [destruct (strptime_date s) as [lo|]; [|reflexivity]|];
    (destruct (truthy_value end_date) as [s'|]; cbn [mbind option_bind];
     [destruct (strptime_date s') as [hi|]; [|reflexivity]|]).
  - rewrite list_filter_filter. apply list_filter_iff.
    intros e. unfold in_range. cbn. tauto.
  - apply list_filter_iff. intros e. unfold in_range. cbn. tauto.
  - apply list_filter_iff. intros e. unfold in_range. cbn. tauto.
  - symmetry. apply filter_all. intros e. unfold in_range. cbn. tauto.
Qed.

Lemma dashboard_data_inl db start_date end_date r :
  dashboard_data' db start_date end_date = inl r ->
  status r = HTTP_400_BAD_REQUEST.
Proof.
  unfold dashboard_data.
  pose proof (filter_entries_spec db start_date end_date) as H.
  destruct (filter_entries _ _ _ _ _); [|discriminate].
  intros [= <-]. exact H.
Qed.

(** A 200 answer on a miss carries the dictionary computed from the
    database, which is then cached under the key of the request. *)
Lemma dashboard_overview_miss db c now start_date end_date r st' :
  cache_get c now (cache_key start_date end_date) = None ->
  dashboard_overview' (db, c) now start_date end_date = (r, st') ->
  status r = HTTP_200_OK ->
  exists d,
    dashboard_data' db start_date end_date = inr d /\
    r = mkResponse (DashboardBody d) HTTP_200_OK /\
    st' = (db, cache_set c now (cache_key start_date end_date) d 300).
Proof.
  unfold dashboard_overview. cbn [fst snd]. intros -> H Hs.
  destruct (dashboard_data' db start_date end_date) as [r0|d] eqn:E.
  - injection H as <- _. apply dashboard_data_inl in E.
    rewrite E in Hs. discriminate.
  - injection H as <- <-. exists d. auto.
Qed.

(** A hit returns the stored dictionary and changes nothing. *)
Lemma dashboard_overview_hit st now start_date end_date d :
  cache_get (snd st) now (cache_key start_date end_date) = Some d ->
  dashboard_overview' st now start_date end_date
  = (mkResponse (DashboardBody d) HTTP_200_OK, st).
Proof. unfold dashboard_overview. intros ->. reflexivity. Qed.

Lemma dashboard_data_task_counts db start_date end_date d :
  dashboard_data' db start_date end_date = inr d ->
  task_counts d = fill_missing_statuses (count_by_status (tasks db)) /\
  total_estimated_time d = format_duration (Sum (estimated_time <$> tasks db)) /\
  total_spent_time d = format_duration (Sum (spent_time <$> tasks db)).
Proof.
  unfold dashboard_data. destruct (filter_entries _ _ _ _ _); [discriminate|].
  intros [= <-]. auto.
Qed.


End DashboardProperties.


(** ** Time per project under a date range *)

(** With unique primary keys the join of an entry with the task table has
    one row when the entry belongs to a task of the project, none
    otherwise. *)
Lemma join_tasks (ts : list Task) (k pid : UUID) (Q : Prop) `{!Decision Q}
    (x : option timedelta) :
  NoDup (task_id <$> ts) ->
  (t ← ts;
   if bool_decide (task_id t = k ∧ task_project t = pid ∧ Q)
   then [x] else [])
  = if decide (Q /\ Exists (fun t => task_id t = k /\ task_project t = pid) ts)
    then [x] else [].
Proof.
  induction ts as [|t ts IH]; intros Hnd.
  - cbn. rewrite decide_False; [reflexivity|].
    intros [_ H]. inversion H.
  - rewrite fmap_cons in Hnd. apply NoDup_cons in Hnd as [Hnotin Hnd].
    rewrite bind_cons, (IH Hnd).
    case_bool_decide as Hhead.
    + destruct Hhead as (Hk & Hp & HQ).
      rewrite decide_False.
      * rewrite decide_True; [reflexivity|]. split; [exact HQ|].
        apply Exists_cons_hd. auto.
      * intros [_ Hex]. apply Exists_exists in Hex as (t' & Hin & Hk' & _).
        apply Hnotin. apply list_elem_of_fmap. exists t'. split; [congruence|].
        exact Hin.
    + cbn [app]. apply decide_ext. split.
      * intros [HQ Hex]. split; [exact HQ|]. apply Exists_cons_tl. exact Hex.
      * intros [HQ Hex]. split; [exact HQ|].
        apply Exists_cons in Hex as [[Hk Hp]|Hex]; [|exact Hex].
        destruct Hhead. auto.
Qed.

Section RangeProperties.

Variable strptime_date : string -> option Z.
Variable date_of : datetime -> Z.

Lemma project_entries_total_filter db qs project :
  NoDup (task_id <$> tasks db) ->
  or_zero (project_entries_total db qs project)
  = foldr Z.add 0
      (omap duration
         (filter (fun e => end_time e ≠ None /\ entry_in_project db project e)
                 qs)).
Proof.
  intros Hnd. unfold project_entries_total, Sum_nullable.
  rewrite or_zero_Sum. f_equal.
  induction qs as [|e qs IH]; [reflexivity|].
  rewrite bind_cons, omap_app, IH, filter_cons.
  rewrite (join_tasks (tasks db) (entry_task e) (project_id project)
             (end_time e ≠ None) (duration e) Hnd).
  unfold entry_in_project.
  destruct (decide (end_time e ≠ None ∧ _)) as [Hy|Hn].
  - cbn [omap list_omap]. unfold id at 1.
    destruct (duration e); reflexivity.
  - reflexivity.
Qed.

Lemma dashboard_data_time_spent db start_date end_date d :
  dashboard_data strptime_date date_of db start_date end_date = inr d ->
  exists qs,
    filter_entries strptime_date date_of db start_date end_date = inr qs /\
    time_spent_per_project d =
      if truthy start_date || truthy end_date
      then
        (fun project =>
           mkProjectTime (project_id project) (project_title project)
             (format_duration
                (Some (or_zero (project_entries_total db qs project)))))
          <$> Project_objects_all db
      else
        (fun project =>
           mkProjectTime (project_id project) (project_title project)
             (format_duration (spent_time_sum db project)))
          <$> Project_objects_all db.
Proof.
  unfold dashboard_data.
  destruct (filter_entries _ _ _ _ _) as [|qs]; [discriminate|].
  intros [= <-]. exists qs. split; reflexivity.
Qed.

(** C8. When a start date and/or an end date is given, the dashboard
    lists for each project, in the order of the model, the formatted sum
    of the durations of the entries of that project whose start day lies
    within the bounds given (both inclusive) and whose end time is set,
    while [task_counts] and the two totals are those the dashboard
    computes without a date: aggregates over all tasks. *)
Theorem dashboard_date_range db c now start_date end_date r st' :
  NoDup (task_id <$> tasks db) ->
  truthy start_date = true \/ truthy end_date = true ->
  cache_get c now (cache_key start_date end_date) = None ->
  dashboard_overview strptime_date date_of (db, c) now start_date end_date
    = (r, st') ->
  status r = HTTP_200_OK ->
  exists d d0,
    data r = DashboardBody d /\
    time_spent_per_project d =
      (fun project =>
         mkProjectTime (project_id project) (project_title project)
           (format_duration
              (Some (spec_range_total date_of db
                       (parse_bound strptime_date start_date)
                       (parse_bound strptime_date end_date) project))))
        <$> Project_objects_all db /\
    dashboard_data strptime_date date_of db None None = inr d0 /\
    task_counts d = task_counts d0 /\
    total_estimated_time d = total_estimated_time d0 /\
    total_spent_time d = total_spent_time d0 /\
    total_estimated_time d = format_duration (Sum (estimated_time <$> tasks db)) /\
    total_spent_time d = format_duration (Sum (spent_time <$> tasks db)).
Proof.
  intros Hnd Hgiven Hmiss H Hs.
  apply dashboard_overview_miss in H as (d & Hd & -> & _);
    [|exact Hmiss|exact Hs].
  destruct (dashboard_data strptime_date date_of db None None) as [r0|d0] eqn:E0;
    [discriminate E0|].
  exists d, d0. split; [reflexivity|].
  pose proof (dashboard_data_task_counts _ _ _ _ _ _ Hd) as (Hc & He & Hsp).
  pose proof (dashboard_data_task_counts _ _ _ _ _ _ E0) as (Hc0 & He0 & Hsp0).
  split; [|repeat split; congruence].
  apply dashboard_data_time_spent in Hd as (qs & Hf & ->).
  pose proof (filter_entries_spec strptime_date date_of db start_date end_date)
    as Hqs.
  rewrite Hf in Hqs.
  assert (Hor : truthy start_date || truthy end_date = true)
    by (destruct Hgiven as [-> | ->]; [reflexivity|apply orb_true_r]).
  rewrite Hor.
  apply list_fmap_ext. intros _ project _.
  assert (Heq : or_zero (project_entries_total db qs project)
                = spec_range_total date_of db
                    (parse_bound strptime_date start_date)
                    (parse_bound strptime_date end_date) project).
  { rewrite (project_entries_total_filter _ _ _ Hnd), Hqs.
    unfold spec_range_total. rewrite list_filter_filter.
    f_equal. f_equal. apply list_filter_iff. intros e. tauto. }
  rewrite Heq. reflexivity.
Qed.

End RangeProperties.

Lemma dashboard_date_range_witness :
  exists d,
    data (fst (dashboard_overview sample_strptime_date utc_date_of
                 (range_db, ∅) (day 20350)
                 (Some "2025-08-01"%string) (Some "2025-08-30"%string)))
      = DashboardBody d /\
    time_spent_per_project d =
      [mkProjectTime "p-2" "Website Redesign" "00:30";
       mkProjectTime "p-1" "Test Project" "01:00"] /\
    total_spent_time d = "03:30"%string.
Proof.
  destruct (dashboard_date_range sample_strptime_date utc_date_of
              range_db ∅ (day 20350)
              (Some "2025-08-01"%string) (Some "2025-08-30"%string)
              (fst (dashboard_overview sample_strptime_date utc_date_of
                      (range_db, ∅) (day 20350)
                      (Some "2025-08-01"%string) (Some "2025-08-30"%string)))
              (snd (dashboard_overview sample_strptime_date utc_date_of
                      (range_db, ∅) (day 20350)
                      (Some "2025-08-01"%string) (Some "2025-08-30"%string))))
    as (d & d0 & Hdata & Htime & _ & _ & _ & _ & _ & Hspent).
  - apply (bool_decide_eq_true_1 _). vm_compute. reflexivity.
  - left. reflexivity.
  - reflexivity.
  - apply surjective_pairing.
  - reflexivity.
  - exists d. split; [exact Hdata|]. split.
    + rewrite Htime. vm_compute. reflexivity.
    + rewrite Hspent. vm_compute. reflexivity.
Defined.

(** ** The cache entries the timers evict *)

Lemma cache_key_not_dashboard_metrics start_date end_date :
  cache_key start_date end_date <> "dashboard_metrics"%string.
Proof. unfold cache_key. intros H. vm_compute in H. discriminate. Qed.

Lemma cache_key_not_project_metrics start_date end_date pid :
  cache_key start_date end_date <> ("project_" +:+ pid +:+ "_metrics")%string.
Proof. unfold cache_key. intros H. vm_compute in H. discriminate. Qed.

(** The two [cache.delete] calls of the timers leave every key of
    [dashboard_overview] in place. *)
Lemma clear_relevant_cache_keeps c t start_date end_date :
  clear_relevant_cache c t !! cache_key start_date end_date
  = c !! cache_key start_date end_date.
Proof.
  unfold clear_relevant_cache, cache_delete.
  rewrite lookup_delete_ne
    by (intros H; symmetry in H; exact (cache_key_not_project_metrics _ _ _ H)).
  rewrite lookup_delete_ne
    by (intros H; symmetry in H; exact (cache_key_not_dashboard_metrics _ _ H)).
  reflexivity.
Qed.

Lemma start_timer_keeps_dashboard_cache st now new_id tid start_date end_date :
  snd (snd (start_timer st now new_id tid)) !! cache_key start_date end_date
  = snd st !! cache_key start_date end_date.
Proof.
  destruct (start_timer st now new_id tid) as [r st'] eqn:E.
  destruct (decide (status r = HTTP_201_CREATED)) as [Hs|Hs].
  - destruct st as [db c].
    apply start_timer_created in E as (t & e & db1 & _ & _ & _ & _ & ->);
      [|exact Hs].
    apply clear_relevant_cache_keeps.
  - apply start_timer_failed in E as ->; [reflexivity|exact Hs].
Qed.

Lemma stop_timer_keeps_dashboard_cache st now tid start_date end_date :
  snd (snd (stop_timer st now tid)) !! cache_key start_date end_date
  = snd st !! cache_key start_date end_date.
Proof.
  destruct (stop_timer st now tid) as [r st'] eqn:E.
  destruct (decide (status r = HTTP_200_OK)) as [Hs|Hs].
  - destruct st as [db c].
    apply stop_timer_stopped in E as (t & a & db1 & _ & _ & _ & _ & ->);
      [|exact Hs].
    apply clear_relevant_cache_keeps.
  - apply stop_timer_failed in E as ->; [reflexivity|exact Hs].
Qed.

(** So a dashboard result that is cached stays the answer of the same
    dashboard request after a timer request, until it expires. *)
Lemma dashboard_served_after_start_timer strptime_date date_of
    st now new_id tid now' start_date end_date d :
  cache_get (snd st) now' (cache_key start_date end_date) = Some d ->
  fst (dashboard_overview strptime_date date_of
         (snd (start_timer st now new_id tid)) now' start_date end_date)
  = mkResponse (DashboardBody d) HTTP_200_OK.
Proof.
  intros H. erewrite dashboard_overview_hit; [reflexivity|].
  unfold cache_get in *. rewrite start_timer_keeps_dashboard_cache. exact H.
Qed.

Lemma dashboard_served_after_stop_timer strptime_date date_of
    st now tid now' start_date end_date d :
  cache_get (snd st) now' (cache_key start_date end_date) = Some d ->
  fst (dashboard_overview strptime_date date_of
         (snd (stop_timer st now tid)) now' start_date end_date)
  = mkResponse (DashboardBody d) HTTP_200_OK.
Proof.
  intros H. erewrite dashboard_overview_hit; [reflexivity|].
  unfold cache_get in *. rewrite stop_timer_keeps_dashboard_cache. exact H.
Qed.

(** C1. After a successful [start_timer] or [stop_timer] the cache entry
    that the dashboard reads when it is called without dates should be gone,
    so that the next such call recomputes its aggregates.  The views delete
    the key "dashboard_metrics", and the dashboard without dates reads
    "dashboard_metrics_None_None": on the sample database, a dashboard
    result cached before a start and a stop of the timer is served again
    after each of them, with a total spent time of "00:00" where the
    database gives "00:01". *)
Theorem timer_leaves_unfiltered_dashboard_cached :
  cache_key None None = "dashboard_metrics_None_None"%string /\
  status (fst (start_timer after_dashboard 2000 "e-1" "t-1")) = HTTP_201_CREATED /\
  status (fst (stop_timer after_start (2000 + minute) "t-1")) = HTTP_200_OK /\
  fst (dashboard_overview sample_strptime_date utc_date_of
         after_start 3000 None None)
  = fst (dashboard_overview sample_strptime_date utc_date_of
           (sample_db, ∅) 1000 None None) /\
  fst (dashboard_overview sample_strptime_date utc_date_of
         after_stop (2000 + 2 * minute) None None)
  = fst (dashboard_overview sample_strptime_date utc_date_of
           (sample_db, ∅) 1000 None None) /\
  exists served fresh,
    data (fst (dashboard_overview sample_strptime_date utc_date_of
                 after_stop (2000 + 2 * minute) None None))
      = DashboardBody served /\
    total_spent_time served = "00:00"%string /\
    dashboard_data sample_strptime_date utc_date_of (fst after_stop) None None
      = inr fresh /\
    total_spent_time fresh = "00:01"%string.
Proof.
  split; [reflexivity|].
  split; [vm_compute; reflexivity|].
  split; [vm_compute; reflexivity|].
  split; [vm_compute; reflexivity|].
  split; [vm_compute; reflexivity|].
  eexists _, _.
  split; [vm_compute; reflexivity|].
  split; [vm_compute; reflexivity|].
  split; [vm_compute; reflexivity|].
  vm_compute. reflexivity.
Qed.

(** ** The requests that succeed *)

Lemma Task_get_exists db tid t :
  Task_get db tid = ok t -> task_exists db tid = true.
Proof.
  intros Hg. unfold task_exists. apply bool_decide_eq_true_2.
  apply Exists_exists. exists t.
  split; [exact (Task_get_elem _ _ _ Hg) | exact (Task_get_id _ _ _ Hg)].
Qed.

(** A task that exists and has no active timer gets one, for a primary key
    that is not taken. *)
Lemma start_timer_succeeds db c now new_id tid t :
  Task_get db tid = ok t ->
  (forall e, e ∈ time_entries db -> entry_task e = tid -> end_time e <> None) ->
  (forall e, e ∈ time_entries db -> entry_id e <> new_id) ->
  status (fst (start_timer (db, c) now new_id tid)) = HTTP_201_CREATED.
Proof.
  intros Hg Hnone Hfresh.
  pose proof (Task_get_id _ _ _ Hg) as Hid.
  assert (Ha : has_active_timer db t = false).
  { destruct (has_active_timer db t) eqn:E; [|reflexivity].
    apply has_active_timer_true in E as (e & Hin & Ht & Hn).
    rewrite Hid in Ht. destruct (Hnone e Hin Ht Hn). }
  unfold start_timer, start_timer_try. cbn [fst snd].
  rewrite Hg, bind_ok, Ha.
  unfold TimeEntry_objects_create.
  rewrite bool_decide_eq_false_2; cycle 1.
  { intros Hex. apply Exists_exists in Hex as (e & Hin & He).
    exact (Hfresh e Hin He). }
  unfold TimeEntry_save, Model_save_TimeEntry.
  cbn [TimeEntry_set_duration end_time entry_id entry_task].
  unfold violates_unique_active_timer. cbn [end_time entry_id entry_task].
  rewrite bool_decide_eq_false_2; cycle 1.
  { intros [_ Hex]. apply Exists_exists in Hex as (e & Hin & _ & Ht & Hn).
    rewrite Hid in Ht. exact (Hnone e Hin Ht Hn). }
  rewrite Hid, (Task_get_exists _ _ _ Hg). cbn [negb].
  case_bool_decide; reflexivity.
Qed.

(** A task with an active timer gets it stopped. *)
Lemma stop_timer_succeeds db c now tid t a :
  Task_get db tid = ok t ->
  active_timer db t = Some a ->
  status (fst (stop_timer (db, c) now tid)) = HTTP_200_OK.
Proof.
  intros Hg Ha.
  pose proof (Task_get_id _ _ _ Hg) as Hid.
  pose proof (active_timer_Some _ _ _ Ha) as (Hin & Ht & _).
  unfold stop_timer, stop_timer_try. cbn [fst snd].
  rewrite Hg, bind_ok, Ha. cbv zeta.
  unfold TimeEntry_save, Model_save_TimeEntry.
  cbn [TimeEntry_set_duration end_time entry_id entry_task start_time].
  unfold violates_unique_active_timer. cbn [end_time].
  rewrite bool_decide_eq_false_2 by (intros [? _]; discriminate).
  rewrite Ht, Hid, (Task_get_exists _ _ _ Hg). cbn [negb].
  case_bool_decide; reflexivity.
Qed.

(** A save of a stopped entry of a task that exists goes through. *)
Lemma TimeEntry_save_stopped_succeeds db e en :
  end_time e = Some en ->
  task_exists db (entry_task e) = true ->
  exists db', TimeEntry_save db e = ok (TimeEntry_set_duration e, db').
Proof.
  intros Hen Hfk. unfold TimeEntry_save, Model_save_TimeEntry.
  assert (Het : entry_task (TimeEntry_set_duration e) = entry_task e)
    by (unfold TimeEntry_set_duration; destruct (end_time e); reflexivity).
  assert (Hee : end_time (TimeEntry_set_duration e) = Some en)
    by (unfold TimeEntry_set_duration; rewrite Hen; reflexivity).
  unfold violates_unique_active_timer. rewrite Hee, Het, Hfk.
  rewrite bool_decide_eq_false_2 by (intros [? _]; discriminate).
  cbn [negb]. case_bool_decide; eexists; reflexivity.
Qed.

(** The dashboard answers 200 unless a date that is given does not parse. *)
Lemma dashboard_overview_succeeds strptime_date date_of st now
    start_date end_date :
  (truthy start_date = true -> is_Some (parse_bound strptime_date start_date)) ->
  (truthy end_date = true -> is_Some (parse_bound strptime_date end_date)) ->
  status (fst (dashboard_overview strptime_date date_of st now
                 start_date end_date)) = HTTP_200_OK.
Proof.
  unfold dashboard_overview, truthy, parse_bound. intros Hs He.
  destruct (cache_get _ _ _); [reflexivity|].
  unfold dashboard_data, filter_entries.
  destruct (truthy_value start_date) as [s|]; cbn [mbind option_bind] in *.
  - destruct (strptime_date s); [|destruct (Hs eq_refl); discriminate].
    destruct (truthy_value end_date) as [s'|]; cbn [mbind option_bind] in *;
      [|reflexivity].
    destruct (strptime_date s'); [reflexivity|destruct (He eq_refl); discriminate].
  - destruct (truthy_value end_date) as [s'|]; cbn [mbind option_bind] in *;
      [|reflexivity].
    destruct (strptime_date s'); [reflexivity|destruct (He eq_refl); discriminate].
Qed.

(** * Further properties of the views *)

(** ** The database after each request *)

Lemma Model_save_TimeEntry_existing db e e0 db' :
  e0 ∈ time_entries db -> entry_id e0 = entry_id e ->
  Model_save_TimeEntry db e = ok db' ->
  db' = set_time_entries db
          (map (fun r => if decide (entry_id r = entry_id e) then e else r)
               (time_entries db)).
Proof.
  intros Hin Hid. unfold Model_save_TimeEntry.
  destruct (violates_unique_active_timer _ _); [discriminate|].
  destruct (negb _); [discriminate|].
  rewrite bool_decide_eq_true_2.
  - unfold ok. intros [= <-]. reflexivity.
  - apply Exists_exists. exists e0. auto.
Qed.

Lemma start_timer_started db c now new_id tid r st' :
  start_timer (db, c) now new_id tid = (r, st') ->
  status r = HTTP_201_CREATED ->
  exists t,
    Task_get db tid = ok t /\
    has_active_timer db t = false /\
    (forall e, e ∈ time_entries db -> entry_id e <> new_id) /\
    r = mkResponse
          (TimeEntryBody
             (TimeEntrySerializer_data
                (mkTimeEntry new_id (task_id t) now None None)))
          HTTP_201_CREATED /\
    st' = (started db t new_id now, clear_relevant_cache c t).
Proof.
  intros H Hs.
  apply start_timer_created in H
    as (t & e & db1 & Hg & Ha & Hc & -> & ->); [|exact Hs].
  apply TimeEntry_objects_create_inv in Hc
    as (-> & Hfresh & Hrows & Htasks & Hprojects).
  exists t. split; [exact Hg|]. split; [exact Ha|]. split.
  { intros e He Hid. apply Hfresh. apply Exists_exists. exists e. auto. }
  split; [reflexivity|]. f_equal. unfold started.
  assert (Hdb1 : db1 = set_time_entries db
                         (time_entries db ++
                          [mkTimeEntry new_id (task_id t) now None None])).
  { destruct db1 as [p1 t1 e1]. cbn in Hrows, Htasks, Hprojects.
    subst. reflexivity. }
  rewrite Hdb1. reflexivity.
Qed.

Lemma stop_timer_stopped_db db c now tid r st' :
  stop_timer (db, c) now tid = (r, st') ->
  status r = HTTP_200_OK ->
  exists t a,
    Task_get db tid = ok t /\
    active_timer db t = Some a /\
    r = mkResponse (TimeEntryBody (TimeEntrySerializer_data (stopped_entry a now)))
                   HTTP_200_OK /\
    st' = (stopped db t a now, clear_relevant_cache c t).
Proof.
  intros H Hs.
  apply stop_timer_stopped in H
    as (t & a & db1 & Hg & Ha & Hm & -> & ->); [|exact Hs].
  exists t, a. split; [exact Hg|]. split; [exact Ha|]. split; [reflexivity|].
  pose proof (active_timer_Some _ _ _ Ha) as (Hin & _).
  apply (Model_save_TimeEntry_existing _ _ a) in Hm; [|exact Hin|reflexivity].
  rewrite Hm. reflexivity.
Qed.

Section StepCases.

Variable strptime_date : string -> option Z.
Variable date_of : datetime -> Z.

(** A request leaves the database as it was, or it is a start or a stop
    that succeeded. *)
Lemma step_cases st now op r st' :
  step strptime_date date_of st now op = (r, st') ->
  fst st' = fst st \/
  (exists new_id tid t,
     op = StartTimer new_id tid /\ status r = HTTP_201_CREATED /\
     Task_get (fst st) tid = ok t /\
     has_active_timer (fst st) t = false /\
     (forall e, e ∈ time_entries (fst st) -> entry_id e <> new_id) /\
     fst st' = started (fst st) t new_id now) \/
  (exists tid t a,
     op = StopTimer tid /\ status r = HTTP_200_OK /\
     Task_get (fst st) tid = ok t /\
     active_timer (fst st) t = Some a /\
     fst st' = stopped (fst st) t a now).
Proof.
  destruct st as [db c]. cbn [fst]. intros H.
  destruct op as [new_id tid|tid|sd ed]; cbn [step] in H.
  - destruct (decide (status r = HTTP_201_CREATED)) as [Hs|Hs].
    + right. left.
      apply start_timer_started in H as (t & Hg & Ha & Hf & _ & ->); [|exact Hs].
      exists new_id, tid, t. auto 10.
    + left. apply start_timer_failed in H as ->; [reflexivity|exact Hs].
  - destruct (decide (status r = HTTP_200_OK)) as [Hs|Hs].
    + right. right.
      apply stop_timer_stopped_db in H as (t & a & Hg & Ha & _ & ->); [|exact Hs].
      exists tid, t, a. auto 10.
    + left. apply stop_timer_failed in H as ->; [reflexivity|exact Hs].
  - left. apply (f_equal (fun p => fst (snd p))) in H.
    rewrite dashboard_overview_db in H. cbn [fst snd] in H. auto.
Qed.

(** A property of the database that every request keeps holds after every
    sequence of requests. *)
Lemma run_invariant (P : DB -> Prop) :
  (forall st now op r st',
     step strptime_date date_of st now op = (r, st') ->
     P (fst st) -> P (fst st')) ->
  forall ops st rs st',
    run strptime_date date_of st ops = (rs, st') -> P (fst st) -> P (fst st').
Proof.
  intros Hstep. induction ops as [|[now op] ops IH]; intros st rs st' Hrun HP.
  - cbn in Hrun. injection Hrun as _ <-. exact HP.
  - rewrite run_cons in Hrun. injection Hrun as _ <-.
    destruct (step strptime_date date_of st now op) as [r st1] eqn:Es.
    cbn [snd].
    destruct (run strptime_date date_of st1 ops) as [rs1 st2] eqn:Er.
    cbn [snd]. apply (IH _ _ _ Er). apply (Hstep _ _ _ _ _ Es HP).
Qed.

End StepCases.

Lemma started_entries db t new_id now :
  time_entries (started db t new_id now)
  = time_entries db ++ [mkTimeEntry new_id (task_id t) now None None].
Proof. unfold started. destruct (task_status t); reflexivity. Qed.

Lemma started_projects db t new_id now :
  projects (started db t new_id now) = projects db.
Proof. unfold started. destruct (task_status t); reflexivity. Qed.

Lemma stopped_entries db t a now :
  time_entries (stopped db t a now)
  = map (fun r => if decide (entry_id r = entry_id a)
                  then stopped_entry a now else r)
        (time_entries db).
Proof. reflexivity. Qed.

(** ** At most one active timer per task *)

Lemma filter_length_snoc {A} (P : A -> Prop) `{!forall x, Decision (P x)}
    (l : list A) (x : A) :
  length (filter P (l ++ [x]))
  = (length (filter P l) + if decide (P x) then 1 else 0)%nat.
Proof.
  rewrite filter_app, length_app, filter_cons, filter_nil.
  destruct (decide (P x)); reflexivity.
Qed.

(** Replacing rows by a row that the selection rejects does not make the
    selection longer. *)
Lemma filter_length_replace {A} (P Q : A -> Prop)
    `{!forall x, Decision (P x)} `{!forall x, Decision (Q x)}
    (y : A) (l : list A) :
  ¬ P y ->
  (length (filter P (map (fun r => if decide (Q r) then y else r) l))
   <= length (filter P l))%nat.
Proof.
  intros Hy. induction l as [|r l IH]; [reflexivity|].
  cbn [map]. rewrite !filter_cons.
  destruct (decide (Q r)).
  - rewrite decide_False by exact Hy.
    destruct (decide (P r)); cbn [length]; lia.
  - destruct (decide (P r)); cbn [length]; lia.
Qed.

Lemma has_active_timer_false_length db t :
  has_active_timer db t = false ->
  length (filter (fun e => entry_task e = task_id t ∧ end_time e = None)
                 (time_entries db)) = 0%nat.
Proof.
  unfold has_active_timer, active_entries.
  destruct (filter _ _); [reflexivity|discriminate].
Qed.

Section SingleActive.

Variable strptime_date : string -> option Z.
Variable date_of : datetime -> Z.

Lemma step_single_active_timer st now op r st' :
  step strptime_date date_of st now op = (r, st') ->
  single_active_timer (time_entries (fst st)) ->
  single_active_timer (time_entries (fst st')).
Proof.
  intros H Hinv.
  destruct (step_cases _ _ _ _ _ _ _ H)
    as [->|[(new_id & tid & t & _ & _ & Hg & Ha & _ & ->)
           |(tid & t & a & _ & _ & _ & _ & ->)]]; [exact Hinv| |].
  - intros tid'. rewrite started_entries, filter_length_snoc.
    cbn [entry_task end_time].
    destruct (decide (task_id t = tid' ∧ None = None)) as [[<- _]|Hne].
    + rewrite (has_active_timer_false_length _ _ Ha). reflexivity.
    + specialize (Hinv tid'). lia.
  - intros tid'. rewrite stopped_entries.
    etransitivity; [|exact (Hinv tid')].
    apply (filter_length_replace _ (fun r => entry_id r = entry_id a)).
    cbn. intros [_ ?]. discriminate.
Qed.

(** X1. Whatever requests are served, a table of entries in which no task
    has two rows with a null end time stays so: the check of [start_timer]
    keeps the single active timer of a task. *)
Theorem run_single_active_timer st ops rs st' :
  run strptime_date date_of st ops = (rs, st') ->
  single_active_timer (time_entries (fst st)) ->
  single_active_timer (time_entries (fst st')).
Proof.
  intros Hrun.
  apply (run_invariant strptime_date date_of
           (fun db => single_active_timer (time_entries db))
           step_single_active_timer _ _ _ _ Hrun).
Qed.

End SingleActive.

Lemma run_single_active_timer_witness :
  single_active_timer
    (time_entries (fst (snd (run sample_strptime_date utc_date_of
                               (sample_db, ∅) sample_ops)))).
Proof.
  apply (run_single_active_timer sample_strptime_date utc_date_of
           (sample_db, ∅) sample_ops
           (fst (run sample_strptime_date utc_date_of (sample_db, ∅) sample_ops))).
  - apply surjective_pairing.
  - intros tid. cbn. lia.
Defined.

(** ** Requests in sequence on one task *)

Lemma start_timer_of_active db c now new_id tid t :
  Task_get db tid = ok t -> has_active_timer db t = true ->
  start_timer (db, c) now new_id tid =
    (mkResponse (ErrorBody "Task already has an active timer")
                HTTP_400_BAD_REQUEST, (db, c)).
Proof.
  intros Hg Ha. unfold start_timer, start_timer_try. cbn [fst snd].
  rewrite Hg, bind_ok, Ha. reflexivity.
Qed.

Lemma stop_timer_of_inactive db c now tid t :
  Task_get db tid = ok t -> active_timer db t = None ->
  stop_timer (db, c) now tid =
    (mkResponse (ErrorBody "No active timer found for this task")
                HTTP_400_BAD_REQUEST, (db, c)).
Proof.
  intros Hg Ha. unfold stop_timer, stop_timer_try. cbn [fst snd].
  rewrite Hg, bind_ok, Ha. reflexivity.
Qed.

Lemma Task_get_started db t new_id now id :
  Task_get (started db t new_id now) id =
  match Task_get db id with
  | inr r =>
      ok (match task_status t with
          | TODO => if decide (task_id r = task_id t)
                    then with_status IN_PROGRESS r else r
          | _ => r
          end)
  | inl e => inl e
  end.
Proof.
  unfold started.
  destruct (task_status t);
    [rewrite Task_get_save_status|..];
    change (Task_get (set_time_entries db ?rows) id) with (Task_get db id);
    destruct (Task_get db id); reflexivity.
Qed.

Lemma Task_get_stopped db t a now id :
  Task_get (stopped db t a now) id =
  match Task_get db id with
  | inr r =>
      ok (if decide (task_id r = task_id t)
          then with_spent_time (spent_time t + (now - start_time a)) r else r)
  | inl e => inl e
  end.
Proof.
  unfold stopped. rewrite Task_get_save_spent_time.
  change (Task_get (set_time_entries db ?rows) id) with (Task_get db id).
  reflexivity.
Qed.

(** X2. For an identifier that no task has, [start_timer] and [stop_timer]
    answer 404 "Task not found" and change neither the database nor the
    cache. *)
Theorem timer_task_not_found db c now new_id tid :
  (forall t, t ∈ tasks db -> task_id t <> tid) ->
  start_timer (db, c) now new_id tid =
    (mkResponse (ErrorBody "Task not found") HTTP_404_NOT_FOUND, (db, c)) /\
  stop_timer (db, c) now tid =
    (mkResponse (ErrorBody "Task not found") HTTP_404_NOT_FOUND, (db, c)).
Proof.
  intros Hnone.
  assert (Hg : Task_get db tid = raise DoesNotExist).
  { unfold Task_get.
    destruct (filter (fun t => task_id t = tid) (tasks db)) as [|t l] eqn:E;
      [reflexivity|].
    assert (Hin : t ∈ filter (fun t => task_id t = tid) (tasks db))
      by (rewrite E; left).
    apply list_elem_of_filter in Hin as [Hid Hin]. destruct (Hnone t Hin Hid). }
  unfold start_timer, start_timer_try, stop_timer, stop_timer_try.
  cbn [fst snd]. rewrite Hg, !bind_raise. split; reflexivity.
Qed.

Lemma timer_task_not_found_witness :
  start_timer (sample_db, ∅) 5000 "e-1" "t-404" =
    (mkResponse (ErrorBody "Task not found") HTTP_404_NOT_FOUND, (sample_db, ∅)) /\
  stop_timer (sample_db, ∅) 5000 "t-404" =
    (mkResponse (ErrorBody "Task not found") HTTP_404_NOT_FOUND, (sample_db, ∅)).
Proof.
  apply (timer_task_not_found sample_db ∅ 5000 "e-1" "t-404").
  intros t Hin. apply list_elem_of_singleton in Hin as ->. discriminate.
Defined.

(** X3. After a successful [start_timer] on a task, every further
    [start_timer] on it, at any time and with any new primary key, is
    rejected with 400 and changes nothing. *)
Theorem start_timer_twice db c now new_id tid r st1 now2 new_id2 :
  start_timer (db, c) now new_id tid = (r, st1) ->
  status r = HTTP_201_CREATED ->
  start_timer st1 now2 new_id2 tid =
    (mkResponse (ErrorBody "Task already has an active timer")
                HTTP_400_BAD_REQUEST, st1).
Proof.
  intros H Hs.
  apply start_timer_started in H as (t & Hg & _ & _ & _ & ->); [|exact Hs].
  pose proof (Task_get_started db t new_id now tid) as Hg1. rewrite Hg in Hg1.
  eapply start_timer_of_active; [exact Hg1|].
  apply has_active_timer_true.
  exists (mkTimeEntry new_id (task_id t) now None None).
  split; [|split; [|reflexivity]].
  - rewrite started_entries. apply elem_of_app. right. left.
  - cbn [entry_task]. destruct (task_status t); [|reflexivity..].
    rewrite decide_True by reflexivity. reflexivity.
Qed.

Lemma start_timer_twice_witness :
  start_timer (snd (start_timer (sample_db, ∅) 5000 "e-1" "t-1"))
              6000 "e-2" "t-1" =
    (mkResponse (ErrorBody "Task already has an active timer")
                HTTP_400_BAD_REQUEST,
     snd (start_timer (sample_db, ∅) 5000 "e-1" "t-1")).
Proof.
  apply (start_timer_twice sample_db ∅ 5000 "e-1" "t-1"
           (fst (start_timer (sample_db, ∅) 5000 "e-1" "t-1"))).
  - apply surjective_pairing.
  - vm_compute. reflexivity.
Defined.

Lemma filter_nil_length {A} (P : A -> Prop) `{!forall x, Decision (P x)}
    (l : list A) :
  length (filter P l) = 0%nat -> forall x, x ∈ l -> ¬ P x.
Proof.
  intros Hlen x Hin HP.
  assert (Hx : x ∈ filter P l) by (apply list_elem_of_filter; auto).
  destruct (filter P l); [inversion Hx|discriminate].
Qed.

(** Two rows that a selection of length at most one keeps are one row. *)
Lemma filter_length_le_1 {A} (P : A -> Prop) `{!forall x, Decision (P x)}
    (l : list A) (x y : A) :
  (length (filter P l) <= 1)%nat ->
  x ∈ l -> P x -> y ∈ l -> P y -> x = y.
Proof.
  intros Hlen Hx HPx Hy HPy.
  assert (Hx' : x ∈ filter P l) by (apply list_elem_of_filter; auto).
  assert (Hy' : y ∈ filter P l) by (apply list_elem_of_filter; auto).
  destruct (filter P l) as [|z [|z' l']]; [inversion Hx'| |cbn in Hlen; lia].
  apply list_elem_of_singleton in Hx', Hy'. congruence.
Qed.

(** After a stop, a task with a single active timer has none. *)
Lemma stopped_no_active db t a now t' :
  (length (filter (fun e => entry_task e = task_id t ∧ end_time e = None)
                  (time_entries db)) <= 1)%nat ->
  active_timer db t = Some a ->
  task_id t' = task_id t ->
  active_timer (stopped db t a now) t' = None.
Proof.
  intros Hinv Ha Hid.
  apply active_timer_Some in Ha as (Hina & Hta & Hna).
  apply active_timer_has. unfold has_active_timer, active_entries.
  rewrite stopped_entries, Hid.
  destruct (filter _ (map _ _)) as [|x l] eqn:E; [reflexivity|].
  assert (Hx : x ∈ filter (fun e => entry_task e = task_id t ∧ end_time e = None)
                     (map (fun r => if decide (entry_id r = entry_id a)
                                    then stopped_entry a now else r)
                          (time_entries db)))
    by (rewrite E; left).
  apply list_elem_of_filter in Hx as [[Htx Hnx] Hx].
  apply list_elem_of_fmap in Hx as (r0 & -> & Hr0).
  destruct (decide (entry_id r0 = entry_id a)) as [Heq|Hne]; [discriminate Hnx|].
  destruct Hne. f_equal.
  apply (filter_length_le_1
           (fun e => entry_task e = task_id t ∧ end_time e = None)
           (time_entries db)); auto.
Qed.

(** X4. A [start_timer] at [now1] on a task without an active timer and a
    [stop_timer] at [now2] on the same task both succeed; the stop returns
    the started entry with the duration [now2 - now1], the spent time of the
    task has grown by exactly that, and the task has no active timer
    again. *)
Theorem start_then_stop db c now1 now2 new_id tid t :
  Task_get db tid = ok t ->
  (forall e, e ∈ time_entries db -> entry_task e = tid -> end_time e <> None) ->
  (forall e, e ∈ time_entries db -> entry_id e <> new_id) ->
  let out1 := start_timer (db, c) now1 new_id tid in
  let out2 := stop_timer (snd out1) now2 tid in
  status (fst out1) = HTTP_201_CREATED /\
  fst out2 =
    mkResponse
      (TimeEntryBody
         (mkTimeEntryData new_id now1 (Some now2) (Some (now2 - now1)) false))
      HTTP_200_OK /\
  exists t2,
    Task_get (fst (snd out2)) tid = ok t2 /\
    spent_time t2 = spent_time t + (now2 - now1) /\
    has_active_timer (fst (snd out2)) t2 = false.
Proof.
  intros Hg Hnone Hfresh out1 out2.
  pose proof (Task_get_id _ _ _ Hg) as Hid.
  pose proof (start_timer_succeeds db c now1 new_id tid t Hg Hnone Hfresh) as Hs1.
  fold out1 in Hs1. split; [exact Hs1|].
  destruct (start_timer_started db c now1 new_id tid (fst out1) (snd out1))
    as (t0 & Hg0 & Ha0 & _ & _ & Hst1); [apply surjective_pairing|exact Hs1|].
  rewrite (Task_get_unique _ _ _ _ Hg0 Hg) in *. clear Hg0 t0.
  set (new := mkTimeEntry new_id (task_id t) now1 None None) in *.
  set (db1 := started db t new_id now1) in *.
  set (t1 := match task_status t with
             | TODO => if decide (task_id t = task_id t)
                       then with_status IN_PROGRESS t else t
             | _ => t
             end).
  assert (Hg1 : Task_get db1 tid = ok t1).
  { unfold db1. rewrite Task_get_started, Hg. reflexivity. }
  assert (Hid1 : task_id t1 = task_id t).
  { unfold t1. destruct (task_status t); [case_decide|..]; reflexivity. }
  assert (Hsp1 : spent_time t1 = spent_time t).
  { unfold t1. destruct (task_status t); [case_decide|..]; reflexivity. }
  assert (Hact : active_entries db1 t1 = [new]).
  { unfold active_entries, db1. rewrite started_entries, Hid1, filter_app.
    pose proof (has_active_timer_false_length _ _ Ha0) as Hlen.
    destruct (filter _ (time_entries db)); [|discriminate].
    rewrite filter_cons_True by (split; reflexivity). reflexivity. }
  assert (Ha1 : active_timer db1 t1 = Some new).
  { unfold active_timer. rewrite Hact. reflexivity. }
  assert (Hout2 : out2 = stop_timer (db1, clear_relevant_cache c t) now2 tid).
  { unfold out2. rewrite Hst1. reflexivity. }
  pose proof (stop_timer_succeeds db1 (clear_relevant_cache c t) now2 tid t1 new
                Hg1 Ha1) as Hs2.
  rewrite <- Hout2 in Hs2.
  destruct (stop_timer_stopped_db db1 (clear_relevant_cache c t) now2 tid
              (fst out2) (snd out2))
    as (t1' & a & Hg1' & Ha1' & Hr2 & Hst2);
    [rewrite <- Hout2; apply surjective_pairing|exact Hs2|].
  rewrite (Task_get_unique _ _ _ _ Hg1' Hg1) in *. clear Hg1' t1'.
  assert (a = new) by congruence. subst a.
  split; [exact Hr2|].
  rewrite Hst2. cbn [fst].
  exists (with_spent_time (spent_time t1 + (now2 - start_time new)) t1).
  split; [|split].
  - rewrite Task_get_stopped, Hg1. cbv [ok].
    rewrite decide_True by reflexivity. reflexivity.
  - cbn. rewrite Hsp1. reflexivity.
  - apply active_timer_has. apply stopped_no_active; [|exact Ha1|reflexivity].
    rewrite Hid1. fold (active_entries db1 t). 
    replace (active_entries db1 t) with (active_entries db1 t1)
      by (unfold active_entries; rewrite Hid1; reflexivity).
    rewrite Hact. reflexivity.
Qed.

Lemma start_then_stop_witness :
  let out1 := start_timer (sample_db, ∅) 1000 "e-1" "t-1" in
  let out2 := stop_timer (snd out1) (1000 + hour) "t-1" in
  status (fst out1) = HTTP_201_CREATED /\
  fst out2 =
    mkResponse
      (TimeEntryBody
         (mkTimeEntryData "e-1" 1000 (Some (1000 + hour))
                          (Some (1000 + hour - 1000)) false))
      HTTP_200_OK /\
  exists t2,
    Task_get (fst (snd out2)) "t-1" = ok t2 /\
    spent_time t2 = spent_time sample_task + (1000 + hour - 1000) /\
    has_active_timer (fst (snd out2)) t2 = false.
Proof.
  apply (start_then_stop sample_db ∅ 1000 (1000 + hour) "e-1" "t-1" sample_task).
  - reflexivity.
  - intros e Hin. inversion Hin.
  - intros e Hin. inversion Hin.
Defined.

(** X5. After a successful [stop_timer] on a task, in a table where no
    task has two active timers, every further [stop_timer] on the task is
    rejected with 400 and changes nothing. *)
Theorem stop_timer_twice db c now tid r st1 now2 :
  single_active_timer (time_entries db) ->
  stop_timer (db, c) now tid = (r, st1) ->
  status r = HTTP_200_OK ->
  stop_timer st1 now2 tid =
    (mkResponse (ErrorBody "No active timer found for this task")
                HTTP_400_BAD_REQUEST, st1).
Proof.
  intros Hinv H Hs.
  apply stop_timer_stopped_db in H as (t & a & Hg & Ha & _ & ->); [|exact Hs].
  eapply stop_timer_of_inactive.
  - rewrite Task_get_stopped, Hg. reflexivity.
  - apply stopped_no_active; [apply Hinv|exact Ha|].
    case_decide; reflexivity.
Qed.

Lemma stop_timer_twice_witness :
  stop_timer (snd (stop_timer (sample_db_active, ∅) 5000 "t-1")) 6000 "t-1" =
    (mkResponse (ErrorBody "No active timer found for this task")
                HTTP_400_BAD_REQUEST,
     snd (stop_timer (sample_db_active, ∅) 5000 "t-1")).
Proof.
  apply (stop_timer_twice sample_db_active ∅ 5000 "t-1"
           (fst (stop_timer (sample_db_active, ∅) 5000 "t-1"))).
  - intros tid. cbn. repeat case_decide; cbn; lia.
  - apply surjective_pairing.
  - vm_compute. reflexivity.
Defined.

(** ** What the views write of a task *)

Lemma status_step_trans s1 s2 s3 :
  status_step s1 s2 -> status_step s2 s3 -> status_step s1 s3.
Proof.
  unfold status_step.
  intros [->|[-> ->]] [->|[? ->]]; auto; discriminate.
Qed.

Lemma stopped_projects db t a now : projects (stopped db t a now) = projects db.
Proof. reflexivity. Qed.

Lemma started_fixed_part db t new_id now :
  task_fixed_part <$> tasks (started db t new_id now)
  = task_fixed_part <$> tasks db.
Proof.
  unfold started. destruct (task_status t); try reflexivity.
  cbn [tasks Task_save_status set_tasks set_time_entries].
  rewrite <- list_fmap_compose. apply list_fmap_ext.
  intros i r _. cbn. case_decide; reflexivity.
Qed.

Lemma stopped_fixed_part db t a now :
  task_fixed_part <$> tasks (stopped db t a now)
  = task_fixed_part <$> tasks db.
Proof.
  unfold stopped.
  cbn [tasks Task_save_spent_time set_tasks set_time_entries].
  rewrite <- list_fmap_compose. apply list_fmap_ext.
  intros i r _. cbn. case_decide; reflexivity.
Qed.

Section TaskWrites.

Variable strptime_date : string -> option Z.
Variable date_of : datetime -> Z.

Lemma step_status st now op r st' id t :
  step strptime_date date_of st now op = (r, st') ->
  Task_get (fst st) id = ok t ->
  exists t',
    Task_get (fst st') id = ok t' /\
    status_step (task_status t) (task_status t').
Proof.
  intros H Hg.
  destruct (step_cases _ _ _ _ _ _ _ H)
    as [->|[(new_id & tid & t0 & _ & _ & Hg0 & _ & _ & ->)
           |(tid & t0 & a & _ & _ & _ & _ & ->)]].
  - exists t. split; [exact Hg|left; reflexivity].
  - rewrite Task_get_started, Hg. eexists. split; [reflexivity|].
    destruct (task_status t0) eqn:E0; try (left; reflexivity).
    case_decide as Hid; [|left; reflexivity].
    (* a task with the key of [t0] is [t0] itself *)
    assert (Heq : t = t0).
    { apply (Task_get_unique (fst st) tid); [|exact Hg0].
      rewrite <- (Task_get_id _ _ _ Hg0), <- Hid, (Task_get_id _ _ _ Hg).
      exact Hg. }
    subst t0. right. split; [exact E0|reflexivity].
  - rewrite Task_get_stopped, Hg. eexists. split; [reflexivity|].
    case_decide; left; reflexivity.
Qed.

Lemma status_step_run ops : forall st rs st' id t,
  run strptime_date date_of st ops = (rs, st') ->
  Task_get (fst st) id = ok t ->
  exists t',
    Task_get (fst st') id = ok t' /\
    status_step (task_status t) (task_status t').
Proof.
  induction ops as [|[now op] ops IH]; intros st rs st' id t Hrun Hg.
  - cbn in Hrun. injection Hrun as _ <-. exists t.
    split; [exact Hg|left; reflexivity].
  - rewrite run_cons in Hrun. injection Hrun as _ <-.
    destruct (step strptime_date date_of st now op) as [r st1] eqn:Es.
    cbn [snd].
    destruct (step_status _ _ _ _ _ id t Es Hg) as (t1 & Hg1 & Hs1).
    destruct (run strptime_date date_of st1 ops) as [rs1 st2] eqn:Er.
    cbn [snd].
    destruct (IH _ _ _ id t1 Er Hg1) as (t2 & Hg2 & Hs2).
    exists t2. split; [exact Hg2|]. exact (status_step_trans _ _ _ Hs1 Hs2).
Qed.

(** X6. Over any sequence of requests to the three views the status of a
    task stays what it was or goes from todo to in_progress: it never goes
    back in the order of [Status], and done is neither entered nor left. *)
Theorem run_status st ops rs st' id t :
  run strptime_date date_of st ops = (rs, st') ->
  Task_get (fst st) id = ok t ->
  exists t',
    Task_get (fst st') id = ok t' /\
    status_step (task_status t) (task_status t') /\
    (Status_rank (task_status t) <= Status_rank (task_status t'))%nat /\
    (task_status t' = DONE <-> task_status t = DONE).
Proof.
  intros Hrun Hg.
  destruct (status_step_run _ _ _ _ id t Hrun Hg) as (t' & Hg' & Hs).
  exists t'. split; [exact Hg'|]. split; [exact Hs|].
  destruct Hs as [->|[-> ->]].
  - split; [lia|tauto].
  - split; [cbn; lia|]. split; discriminate.
Qed.

Lemma step_fixed_part st now op r st' :
  step strptime_date date_of st now op = (r, st') ->
  projects (fst st') = projects (fst st) /\
  task_fixed_part <$> tasks (fst st') = task_fixed_part <$> tasks (fst st).
Proof.
  intros H.
  destruct (step_cases _ _ _ _ _ _ _ H)
    as [->|[(new_id & tid & t0 & _ & _ & _ & _ & _ & ->)
           |(tid & t0 & a & _ & _ & _ & _ & ->)]].
  - split; reflexivity.
  - split; [apply started_projects|apply started_fixed_part].
  - split; [apply stopped_projects|apply stopped_fixed_part].
Qed.

(** X7. No sequence of requests to the three views changes the table of
    projects, adds or removes a task, or changes the identifier, project,
    title or estimated time of a task: the views write the status and the
    spent time of tasks and nothing else outside the entries. *)
Theorem run_fixed_part st ops rs st' :
  run strptime_date date_of st ops = (rs, st') ->
  projects (fst st') = projects (fst st) /\
  task_fixed_part <$> tasks (fst st') = task_fixed_part <$> tasks (fst st).
Proof.
  intros Hrun.
  apply (run_invariant strptime_date date_of
           (fun db => projects db = projects (fst st) /\
                      task_fixed_part <$> tasks db
                      = task_fixed_part <$> tasks (fst st)))
    with (ops := ops) (st := st) (rs := rs); [|exact Hrun|split; reflexivity].
  intros st0 now op r st0' Hstep [Hp Ht].
  destruct (step_fixed_part _ _ _ _ _ Hstep) as [Hp' Ht'].
  split; congruence.
Qed.

End TaskWrites.

Lemma run_status_witness :
  exists t',
    Task_get (fst (snd (run sample_strptime_date utc_date_of
                          (sample_db, ∅) sample_ops))) "t-1" = ok t' /\
    status_step (task_status sample_task) (task_status t') /\
    (Status_rank (task_status sample_task) <= Status_rank (task_status t'))%nat /\
    (task_status t' = DONE <-> task_status sample_task = DONE).
Proof.
  apply (run_status sample_strptime_date utc_date_of (sample_db, ∅) sample_ops
           (fst (run sample_strptime_date utc_date_of (sample_db, ∅) sample_ops))
           _ "t-1" sample_task).
  - apply surjective_pairing.
  - reflexivity.
Defined.

Lemma run_fixed_part_witness :
  let db' := fst (snd (run sample_strptime_date utc_date_of
                         (sample_db, ∅) sample_ops)) in
  projects db' = projects sample_db /\
  task_fixed_part <$> tasks db' = task_fixed_part <$> tasks sample_db.
Proof.
  apply (run_fixed_part sample_strptime_date utc_date_of (sample_db, ∅)
           sample_ops
           (fst (run sample_strptime_date utc_date_of (sample_db, ∅) sample_ops))).
  apply surjective_pairing.
Defined.

(** ** The rows of the entry table under the requests *)

(** With unique primary keys, the UPDATE of a stop changes the row of the
    active timer and no other. *)
Lemma stopped_rows_split rows a now :
  unique_entry_ids rows -> a ∈ rows ->
  exists l1 l2,
    rows = l1 ++ a :: l2 /\
    map (fun r => if decide (entry_id r = entry_id a)
                  then stopped_entry a now else r) rows
    = l1 ++ stopped_entry a now :: l2.
Proof.
  unfold unique_entry_ids. intros Hnd Hin.
  apply list_elem_of_split in Hin as (l1 & l2 & ->).
  exists l1, l2. split; [reflexivity|].
  rewrite fmap_app, fmap_cons in Hnd.
  apply NoDup_app in Hnd as (_ & Hl1 & Hnd).
  apply NoDup_cons in Hnd as (Hl2 & _).
  assert (Hsame : forall l : list TimeEntry,
            entry_id a ∉ entry_id <$> l ->
            map (fun r => if decide (entry_id r = entry_id a)
                          then stopped_entry a now else r) l = l).
  { intros l Hl. induction l as [|r l IH]; [reflexivity|].
    cbn [map]. rewrite fmap_cons in Hl. apply not_elem_of_cons in Hl as [Hne Hl].
    rewrite decide_False by congruence. f_equal. apply IH. exact Hl. }
  rewrite map_app. cbn [map]. rewrite decide_True by reflexivity.
  rewrite (Hsame l2 Hl2). f_equal. apply Hsame.
  intros Hin. apply (Hl1 _ Hin). left.
Qed.

Lemma stopped_rows_ids rows a now :
  entry_id <$> map (fun r => if decide (entry_id r = entry_id a)
                             then stopped_entry a now else r) rows
  = entry_id <$> rows.
Proof.
  change (map ?f rows) with (f <$> rows).
  rewrite <- list_fmap_compose. apply list_fmap_ext.
  intros i r _. cbn. case_decide; [symmetry; assumption|reflexivity].
Qed.

Section EntryRows.

Variable strptime_date : string -> option Z.
Variable date_of : datetime -> Z.

Lemma step_unique_entry_ids st now op r st' :
  step strptime_date date_of st now op = (r, st') ->
  unique_entry_ids (time_entries (fst st)) ->
  unique_entry_ids (time_entries (fst st')).
Proof.
  intros H Hnd.
  destruct (step_cases _ _ _ _ _ _ _ H)
    as [->|[(new_id & tid & t0 & _ & _ & _ & _ & Hfresh & ->)
           |(tid & t0 & a & _ & _ & _ & _ & ->)]]; [exact Hnd| |].
  - unfold unique_entry_ids. rewrite started_entries, fmap_app.
    apply NoDup_app. split; [exact Hnd|]. split; [|apply NoDup_singleton].
    intros x Hx Hx'. apply list_elem_of_singleton in Hx'. subst x.
    apply list_elem_of_fmap in Hx as (e & He & Hin).
    apply (Hfresh e Hin). symmetry. exact He.
  - unfold unique_entry_ids. rewrite stopped_entries, stopped_rows_ids.
    exact Hnd.
Qed.

(** One request keeps every stopped row as it is, and every row under its
    key with its task and start time. *)
Lemma step_entries_kept st now op r st' e :
  step strptime_date date_of st now op = (r, st') ->
  unique_entry_ids (time_entries (fst st)) ->
  e ∈ time_entries (fst st) ->
  (end_time e <> None -> e ∈ time_entries (fst st')) /\
  exists e', e' ∈ time_entries (fst st') /\
             entry_id e' = entry_id e /\ entry_task e' = entry_task e /\
             start_time e' = start_time e.
Proof.
  intros H Hnd Hin.
  destruct (step_cases _ _ _ _ _ _ _ H)
    as [->|[(new_id & tid & t0 & _ & _ & _ & _ & _ & ->)
           |(tid & t0 & a & _ & _ & _ & Ha & ->)]].
  - split; [auto|]. exists e. auto.
  - rewrite started_entries. split.
    + intros _. apply elem_of_app. left. exact Hin.
    + exists e. split; [apply elem_of_app; left; exact Hin|auto].
  - rewrite stopped_entries.
    apply active_timer_Some in Ha as (Hina & _ & Hnone).
    destruct (stopped_rows_split _ a now Hnd Hina) as (l1 & l2 & Hrows & ->).
    rewrite Hrows in Hin.
    apply elem_of_app in Hin as [Hin|Hin].
    { split; [intros _|exists e; split; [|auto]];
        apply elem_of_app; left; exact Hin. }
    apply elem_of_cons in Hin as [->|Hin].
    + split; [intros Hend; destruct (Hend Hnone)|].
      exists (stopped_entry a now).
      split; [apply elem_of_app; right; left|auto].
    + split; [intros _|exists e; split; [|auto]];
        apply elem_of_app; right; right; exact Hin.
Qed.

(** X8. With unique primary keys, no sequence of requests removes an entry
    or changes its task or start time, an entry that is stopped is never
    changed again, and the primary keys stay unique. *)
Theorem run_entries_kept ops : forall st rs st' e,
  run strptime_date date_of st ops = (rs, st') ->
  unique_entry_ids (time_entries (fst st)) ->
  e ∈ time_entries (fst st) ->
  unique_entry_ids (time_entries (fst st')) /\
  (end_time e <> None -> e ∈ time_entries (fst st')) /\
  exists e', e' ∈ time_entries (fst st') /\
             entry_id e' = entry_id e /\ entry_task e' = entry_task e /\
             start_time e' = start_time e.
Proof.
  induction ops as [|[now op] ops IH]; intros st rs st' e Hrun Hnd Hin.
  - cbn in Hrun. injection Hrun as _ <-.
    split; [exact Hnd|]. split; [auto|]. exists e. auto.
  - rewrite run_cons in Hrun. injection Hrun as _ <-.
    destruct (step strptime_date date_of st now op) as [r st1] eqn:Es.
    cbn [snd].
    pose proof (step_unique_entry_ids _ _ _ _ _ Es Hnd) as Hnd1.
    destruct (step_entries_kept _ _ _ _ _ e Es Hnd Hin)
      as (Hkept & e1 & Hin1 & Hid1 & Ht1 & Hs1).
    destruct (run strptime_date date_of st1 ops) as [rs1 st2] eqn:Er.
    cbn [snd].
    destruct (IH _ _ _ e1 Er Hnd1 Hin1) as (Hnd2 & _ & e2 & Hin2 & Hid2 & Ht2 & Hs2).
    split; [exact Hnd2|]. split.
    + intros Hend.
      destruct (IH _ _ _ e Er Hnd1 (Hkept Hend)) as (_ & Hkept2 & _).
      exact (Hkept2 Hend).
    + exists e2. split; [exact Hin2|]. split; [|split]; congruence.
Qed.

End EntryRows.

Lemma run_entries_kept_witness :
  let rows' := time_entries
                 (fst (snd (run sample_strptime_date utc_date_of
                              (sample_db_active, ∅)
                              [(1000 + hour, StopTimer "t-1");
                               (1000 + 2 * hour, StartTimer "e-2" "t-1")]))) in
  unique_entry_ids rows' /\
  (end_time active_time_entry <> None -> active_time_entry ∈ rows') /\
  exists e', e' ∈ rows' /\
             entry_id e' = entry_id active_time_entry /\
             entry_task e' = entry_task active_time_entry /\
             start_time e' = start_time active_time_entry.
Proof.
  apply (run_entries_kept sample_strptime_date utc_date_of
           [(1000 + hour, StopTimer "t-1");
            (1000 + 2 * hour, StartTimer "e-2" "t-1")]
           (sample_db_active, ∅)
           (fst (run sample_strptime_date utc_date_of (sample_db_active, ∅)
                   [(1000 + hour, StopTimer "t-1");
                    (1000 + 2 * hour, StartTimer "e-2" "t-1")]))).
  - apply surjective_pairing.
  - apply NoDup_singleton.
  - left.
Defined.

(** ** Spent time and the stopped entries *)

Lemma foldr_add_app (l1 l2 : list Z) :
  foldr Z.add 0 (l1 ++ l2) = foldr Z.add 0 l1 + foldr Z.add 0 l2.
Proof. induction l1 as [|x l1 IH]; cbn [foldr app]; lia. Qed.

Lemma stopped_total_nil tid : stopped_total [] tid = 0.
Proof. reflexivity. Qed.

Lemma stopped_total_cons e rows tid :
  stopped_total (e :: rows) tid = stopped_part tid e + stopped_total rows tid.
Proof.
  unfold stopped_total, stopped_part. rewrite filter_cons.
  destruct (decide (entry_task e = tid ∧ end_time e ≠ None)); [|lia].
  cbn [omap list_omap]. destruct (duration e); cbn; lia.
Qed.

Lemma stopped_total_app rows1 rows2 tid :
  stopped_total (rows1 ++ rows2) tid
  = stopped_total rows1 tid + stopped_total rows2 tid.
Proof.
  induction rows1 as [|e rows1 IH]; [cbn [app]; rewrite stopped_total_nil; lia|].
  cbn [app]. rewrite !stopped_total_cons, IH. lia.
Qed.

(** A start adds nothing to any total. *)
Lemma stopped_total_started db t new_id now tid :
  stopped_total (time_entries (started db t new_id now)) tid
  = stopped_total (time_entries db) tid.
Proof.
  rewrite started_entries, stopped_total_app, stopped_total_cons,
    stopped_total_nil.
  unfold stopped_part. rewrite decide_False by (cbn; tauto). lia.
Qed.

(** A stop adds its duration to the total of the task of the entry. *)
Lemma stopped_total_stopped db t a now tid :
  unique_entry_ids (time_entries db) ->
  a ∈ time_entries db -> end_time a = None ->
  stopped_total (time_entries (stopped db t a now)) tid
  = stopped_total (time_entries db) tid
    + if decide (entry_task a = tid) then now - start_time a else 0.
Proof.
  intros Hnd Hin Hnone. rewrite stopped_entries.
  destruct (stopped_rows_split _ a now Hnd Hin) as (l1 & l2 & Hrows & ->).
  rewrite Hrows, !stopped_total_app, !stopped_total_cons.
  unfold stopped_part at 2. rewrite decide_False by (rewrite Hnone; tauto).
  unfold stopped_part. cbn [stopped_entry entry_task end_time duration].
  destruct (decide (entry_task a = tid)) as [Heq|Hne].
  - rewrite decide_True by (split; [exact Heq|discriminate]).
    cbv [default from_option id]. lia.
  - rewrite decide_False by tauto. lia.
Qed.

Section Ledger.

Variable strptime_date : string -> option Z.
Variable date_of : datetime -> Z.

Lemma step_ledger st now op r st' :
  step strptime_date date_of st now op = (r, st') ->
  unique_entry_ids (time_entries (fst st)) /\ ledger_consistent (fst st) ->
  unique_entry_ids (time_entries (fst st')) /\ ledger_consistent (fst st').
Proof.
  intros H [Hnd Hled].
  split; [exact (step_unique_entry_ids _ _ _ _ _ _ _ H Hnd)|].
  destruct (step_cases _ _ _ _ _ _ _ H)
    as [->|[(new_id & tid & t0 & _ & _ & _ & _ & _ & ->)
           |(tid & t0 & a & _ & _ & Hg0 & Ha & ->)]]; [exact Hled| |].
  - intros t' Hin'. rewrite stopped_total_started.
    assert (Hex : exists t, t ∈ tasks (fst st) /\
                            task_id t' = task_id t /\
                            spent_time t' = spent_time t).
    { unfold started in Hin'.
      destruct (task_status t0); try (exists t'; auto; fail).
      cbn [tasks Task_save_status set_tasks set_time_entries] in Hin'.
      apply list_elem_of_fmap in Hin' as (t & -> & Hin).
      exists t. split; [exact Hin|]. case_decide; auto. }
    destruct Hex as (t & Hin & -> & ->). apply Hled. exact Hin.
  - pose proof (active_timer_Some _ _ _ Ha) as (Hina & Hta & Hnone).
    intros t' Hin'.
    rewrite (stopped_total_stopped _ _ _ _ _ Hnd Hina Hnone).
    unfold stopped in Hin'.
    cbn [tasks Task_save_spent_time set_tasks set_time_entries] in Hin'.
    apply list_elem_of_fmap in Hin' as (t & -> & Hin).
    rewrite Hta.
    change (task_id (with_spent_time ?d t0)) with (task_id t0).
    destruct (decide (task_id t = task_id t0)) as [Heq|Hne].
    + cbn [with_spent_time task_id spent_time].
      rewrite decide_True by (symmetry; exact Heq).
      rewrite (Hled t0 (Task_get_elem _ _ _ Hg0)), Heq. reflexivity.
    + rewrite decide_False by congruence. rewrite (Hled t Hin). lia.
Qed.

(** X9. With unique primary keys of the entries, a database in which the
    spent time of every task is the sum of the durations of its stopped
    entries stays so under every sequence of requests: what [stop_timer]
    adds to the task is what it writes to the entry. *)
Theorem run_ledger st ops rs st' :
  run strptime_date date_of st ops = (rs, st') ->
  unique_entry_ids (time_entries (fst st)) ->
  ledger_consistent (fst st) ->
  unique_entry_ids (time_entries (fst st')) /\ ledger_consistent (fst st').
Proof.
  intros Hrun Hnd Hled.
  apply (run_invariant strptime_date date_of
           (fun db => unique_entry_ids (time_entries db) /\ ledger_consistent db)
           step_ledger _ _ _ _ Hrun).
  split; assumption.
Qed.

End Ledger.

Lemma run_ledger_witness :
  let db' := fst (snd (run sample_strptime_date utc_date_of
                         (sample_db, ∅) sample_ops)) in
  unique_entry_ids (time_entries db') /\ ledger_consistent db'.
Proof.
  apply (run_ledger sample_strptime_date utc_date_of (sample_db, ∅) sample_ops
           (fst (run sample_strptime_date utc_date_of (sample_db, ∅) sample_ops))).
  - apply surjective_pairing.
  - apply NoDup_nil. exact I.
  - intros t Hin. apply list_elem_of_singleton in Hin as ->. reflexivity.
Defined.

(** ** The cache of the dashboard *)

Lemma cache_get_set c now key d timeout now' :
  cache_get (cache_set c now key d timeout) now' key
  = if now' <? now + timeout * us_per_second then Some d else None.
Proof.
  unfold cache_get, cache_set. rewrite lookup_insert_eq. reflexivity.
Qed.

Section DashboardCache.

Variable strptime_date : string -> option Z.
Variable date_of : datetime -> Z.

(** X10. A dashboard result computed at [now] is the answer to the same
    request for the next 300 seconds, whatever the database has become and
    without a change of the state; from 300 seconds on the request is
    computed from the database again, as with an empty cache. *)
Theorem dashboard_cached_for_ttl db c now start_date end_date r st1 db' now' :
  cache_get c now (cache_key start_date end_date) = None ->
  dashboard_overview strptime_date date_of (db, c) now start_date end_date
    = (r, st1) ->
  status r = HTTP_200_OK ->
  (now' < now + 300 * us_per_second ->
   dashboard_overview strptime_date date_of (db', snd st1) now'
     start_date end_date = (r, (db', snd st1))) /\
  (now + 300 * us_per_second <= now' ->
   fst (dashboard_overview strptime_date date_of (db', snd st1) now'
          start_date end_date)
   = fst (dashboard_overview strptime_date date_of (db', ∅) now'
            start_date end_date)).
Proof.
  intros Hmiss H Hs.
  apply dashboard_overview_miss in H as (d & _ & -> & ->);
    [|exact Hmiss|exact Hs].
  cbn [snd]. split; intros Hnow.
  - apply dashboard_overview_hit. cbn [snd]. rewrite cache_get_set.
    rewrite (proj2 (Z.ltb_lt _ _)) by exact Hnow. reflexivity.
  - unfold dashboard_overview. cbn [fst snd]. rewrite cache_get_set.
    rewrite (proj2 (Z.ltb_ge _ _)) by exact Hnow.
    unfold cache_get. rewrite lookup_empty.
    destruct (dashboard_data _ _ _ _ _); reflexivity.
Qed.

(** X11. On a miss, a start date that is given and is not a date in the
    format gives 400 naming [start_date], whatever the end date is; an end
    date that is not one gives 400 naming [end_date] when the start date is
    absent or well-formed.  Neither caches anything. *)
Theorem dashboard_invalid_date db c now start_date end_date :
  cache_get c now (cache_key start_date end_date) = None ->
  (forall s, truthy_value start_date = Some s -> strptime_date s = None ->
     dashboard_overview strptime_date date_of (db, c) now start_date end_date
     = (mkResponse (ErrorBody "Invalid start_date format. Use YYYY-MM-DD")
                   HTTP_400_BAD_REQUEST, (db, c))) /\
  (forall s, (truthy start_date = true ->
              is_Some (parse_bound strptime_date start_date)) ->
     truthy_value end_date = Some s -> strptime_date s = None ->
     dashboard_overview strptime_date date_of (db, c) now start_date end_date
     = (mkResponse (ErrorBody "Invalid end_date format. Use YYYY-MM-DD")
                   HTTP_400_BAD_REQUEST, (db, c))).
Proof.
  intros Hmiss. unfold dashboard_overview. cbn [fst snd]. rewrite Hmiss.
  unfold dashboard_data, filter_entries. split.
  - intros s -> ->. reflexivity.
  - intros s Hstart -> ->. unfold truthy, parse_bound in Hstart.
    destruct (truthy_value start_date) as [s0|]; [|reflexivity].
    cbn [mbind option_bind] in Hstart.
    destruct (strptime_date s0); [reflexivity|].
    destruct (Hstart eq_refl). discriminate.
Qed.

End DashboardCache.

Lemma dashboard_cached_for_ttl_witness :
  let out := dashboard_overview sample_strptime_date utc_date_of
               (sample_db, ∅) 1000 None None in
  dashboard_overview sample_strptime_date utc_date_of
    (range_db, snd (snd out)) (1000 + 299 * us_per_second) None None
  = (fst out, (range_db, snd (snd out))).
Proof.
  intros out.
  assert (Hmiss : cache_get (∅ : Cache) 1000 (cache_key None None) = None)
    by reflexivity.
  apply (proj1 (dashboard_cached_for_ttl sample_strptime_date utc_date_of
                  sample_db ∅ 1000 None None (fst out) (snd out) range_db
                  (1000 + 299 * us_per_second)
                  Hmiss (surjective_pairing _) eq_refl)).
  reflexivity.
Defined.

Lemma dashboard_invalid_date_witness :
  dashboard_overview sample_strptime_date utc_date_of (sample_db, ∅) 1000
    (Some "01/08/2025"%string) (Some "2025-08-30"%string)
  = (mkResponse (ErrorBody "Invalid start_date format. Use YYYY-MM-DD")
                HTTP_400_BAD_REQUEST, (sample_db, ∅)).
Proof.
  assert (Hmiss : cache_get (∅ : Cache) 1000
                     (cache_key (Some "01/08/2025"%string)
                                (Some "2025-08-30"%string)) = None)
    by reflexivity.
  apply (proj1 (dashboard_invalid_date sample_strptime_date utc_date_of
                  sample_db ∅ 1000
                  (Some "01/08/2025"%string) (Some "2025-08-30"%string)
                  Hmiss) "01/08/2025"%string); reflexivity.
Defined.

(** ** The payload of the dashboard *)

#[global] Instance created_desc_total : Total created_desc.
Proof. intros p q. unfold created_desc. lia. Qed.

#[global] Instance created_desc_trans : Transitive created_desc.
Proof. intros p q r. unfold created_desc. lia. Qed.

Lemma set_date_lookup k v (m : gmap string string) k' :
  set_date k v m !! k' =
  if decide (k = k') then (match v with Some s => Some s | None => m !! k end)
  else m !! k'.
Proof.
  unfold set_date. destruct v as [s|].
  - rewrite lookup_insert. case_decide; reflexivity.
  - case_decide as E; [rewrite E|]; reflexivity.
Qed.

Section DashboardPayload.

Variable strptime_date : string -> option Z.
Variable date_of : datetime -> Z.

Lemma dashboard_data_date_range_filter db start_date end_date d :
  dashboard_data strptime_date date_of db start_date end_date = inr d ->
  date_range_filter d =
    if bool_decide (date_filter start_date end_date = ∅) then None
    else Some (date_filter start_date end_date).
Proof.
  unfold dashboard_data.
  destruct (filter_entries _ _ _ _ _); [discriminate|].
  intros [= <-]. reflexivity.
Qed.

(** X12. The answer of the dashboard echoes the date range under
    [date_range_filter]: the key is absent when neither date is given, and
    otherwise its dictionary has exactly the dates that are given, under
    [start_date] and [end_date]. *)
Theorem dashboard_echoes_date_range db start_date end_date d :
  dashboard_data strptime_date date_of db start_date end_date = inr d ->
  match date_range_filter d with
  | None => truthy_value start_date = None /\ truthy_value end_date = None
  | Some m =>
      (is_Some (truthy_value start_date) \/ is_Some (truthy_value end_date)) /\
      m !! "start_date"%string = truthy_value start_date /\
      m !! "end_date"%string = truthy_value end_date /\
      forall k, k <> "start_date"%string -> k <> "end_date"%string ->
                m !! k = None
  end.
Proof.
  intros Hd. rewrite (dashboard_data_date_range_filter _ _ _ _ Hd).
  assert (Hs : date_filter start_date end_date !! "start_date"%string
               = truthy_value start_date).
  { unfold date_filter. rewrite !set_date_lookup.
    rewrite decide_False by discriminate. rewrite decide_True by reflexivity.
    destruct (truthy_value start_date); [reflexivity|apply lookup_empty]. }
  assert (He : date_filter start_date end_date !! "end_date"%string
               = truthy_value end_date).
  { unfold date_filter. rewrite !set_date_lookup.
    rewrite decide_True by reflexivity.
    destruct (truthy_value end_date); [reflexivity|].
    rewrite decide_False by discriminate. apply lookup_empty. }
  case_bool_decide as Hempty.
  - rewrite Hempty, lookup_empty in Hs, He. auto.
  - split; [|split; [exact Hs|split; [exact He|]]].
    + destruct (truthy_value start_date) as [s|] eqn:E1; [left; eauto|].
      destruct (truthy_value end_date) as [s|] eqn:E2; [right; eauto|].
      destruct Hempty. unfold date_filter. rewrite E1, E2. reflexivity.
    + intros k Hk1 Hk2. unfold date_filter. rewrite !set_date_lookup.
      rewrite !decide_False by congruence. apply lookup_empty.
Qed.


End DashboardPayload.

Lemma dashboard_echoes_date_range_witness :
  exists d m,
    dashboard_data sample_strptime_date utc_date_of range_db
      None (Some "2025-08-30"%string) = inr d /\
    date_range_filter d = Some m /\
    m !! "start_date"%string = None /\
    m !! "end_date"%string = Some "2025-08-30"%string.
Proof.
  destruct (dashboard_data sample_strptime_date utc_date_of range_db
              None (Some "2025-08-30"%string)) as [r|d] eqn:E;
    [vm_compute in E; discriminate|].
  pose proof (dashboard_echoes_date_range sample_strptime_date utc_date_of
                range_db None (Some "2025-08-30"%string) d E) as H.
  destruct (date_range_filter d) as [m|] eqn:Em.
  - exists d, m. destruct H as (_ & Hs & He & _).
    split; [reflexivity|]. split; [exact Em|]. split; [exact Hs|exact He].
  - destruct H as [_ H]. discriminate H.
Defined.


(** ** The serializers and the dashboard *)




Section SerializerAgreement.

Variable strptime_date : string -> option Z.
Variable date_of : datetime -> Z.


End SerializerAgreement.


(** ** The derived fields of a project *)

(** The row that [Task.objects.get] finds is the only one with its key. *)
Lemma Task_get_split db tid t :
  Task_get db tid = ok t ->
  exists l1 l2,
    tasks db = l1 ++ t :: l2 /\
    (forall r, r ∈ l1 -> task_id r <> tid) /\
    (forall r, r ∈ l2 -> task_id r <> tid).
Proof.
  intros Hg. apply Task_get_ok in Hg. revert Hg.
  generalize (tasks db). intros l. induction l as [|x l IH]; [discriminate|].
  rewrite filter_cons. destruct (decide (task_id x = tid)) as [Hx|Hx].
  - intros [= -> Hnil]. exists [], l. split; [reflexivity|].
    split; [intros r Hr; inversion Hr|].
    intros r Hr Hid.
    assert (Hin : r ∈ filter (fun r => task_id r = tid) l)
      by (apply list_elem_of_filter; auto).
    rewrite Hnil in Hin. inversion Hin.
  - intros Hf. destruct (IH Hf) as (l1 & l2 & -> & H1 & H2).
    exists (x :: l1), l2. split; [reflexivity|]. split; [|exact H2].
    intros r Hr. apply elem_of_cons in Hr as [->|Hr]; auto.
Qed.

Lemma map_update_others (upd : Task -> Task) (key : UUID) (l : list Task) :
  (forall r, r ∈ l -> task_id r <> key) ->
  map (fun r => if decide (task_id r = key) then upd r else r) l = l.
Proof.
  intros H. induction l as [|r l IH]; [reflexivity|].
  cbn [map]. rewrite decide_False by (apply H; left).
  f_equal. apply IH. intros r' Hr'. apply H. right. exact Hr'.
Qed.

Lemma stopped_tasks_split db tid t a now :
  Task_get db tid = ok t ->
  exists l1 l2,
    tasks db = l1 ++ t :: l2 /\
    tasks (stopped db t a now)
    = l1 ++ with_spent_time (spent_time t + (now - start_time a)) t :: l2.
Proof.
  intros Hg. pose proof (Task_get_id _ _ _ Hg) as Hid.
  destruct (Task_get_split _ _ _ Hg) as (l1 & l2 & Hrows & H1 & H2).
  exists l1, l2. split; [exact Hrows|].
  unfold stopped.
  cbn [tasks Task_save_spent_time set_tasks set_time_entries
       with_spent_time task_id spent_time].
  rewrite Hrows, map_app. cbn [map].
  rewrite decide_True by reflexivity.
  rewrite !map_update_others by (rewrite Hid; assumption). reflexivity.
Qed.

Lemma project_sum_app (f : Task -> Z) (p : Project) (l1 l2 : list Task) :
  foldr Z.add 0
    (f <$> filter (fun t => task_project t = project_id p) (l1 ++ l2))
  = foldr Z.add 0 (f <$> filter (fun t => task_project t = project_id p) l1)
    + foldr Z.add 0 (f <$> filter (fun t => task_project t = project_id p) l2).
Proof. rewrite filter_app, fmap_app, foldr_add_app. reflexivity. Qed.

Lemma project_sum_cons (f : Task -> Z) (p : Project) (t : Task) (l : list Task) :
  foldr Z.add 0
    (f <$> filter (fun t => task_project t = project_id p) (t :: l))
  = (if decide (task_project t = project_id p) then f t else 0)
    + foldr Z.add 0 (f <$> filter (fun t => task_project t = project_id p) l).
Proof.
  rewrite filter_cons.
  destruct (decide (task_project t = project_id p)); [reflexivity|lia].
Qed.

(** X15. A successful [stop_timer] adds the duration it returns to
    [Project.total_spent_time] of the project of the task and to that of no
    other project, and changes neither [task_count] nor
    [total_estimated_time] of any project. *)
Theorem stop_timer_project_totals db c now tid r st' :
  stop_timer (db, c) now tid = (r, st') ->
  status r = HTTP_200_OK ->
  exists t b d,
    Task_get db tid = ok t /\
    data r = TimeEntryBody b /\ data_duration b = Some d /\
    forall p,
      Project_total_spent_time (fst st') p
      = Project_total_spent_time db p
        + (if decide (task_project t = project_id p) then d else 0) /\
      Project_task_count (fst st') p = Project_task_count db p /\
      Project_total_estimated_time (fst st') p
      = Project_total_estimated_time db p.
Proof.
  intros H Hs.
  apply stop_timer_stopped_db in H as (t & a & Hg & Ha & -> & ->); [|exact Hs].
  exists t, (TimeEntrySerializer_data (stopped_entry a now)), (now - start_time a).
  split; [exact Hg|]. split; [reflexivity|]. split; [reflexivity|].
  intros p. cbn [fst].
  destruct (stopped_tasks_split db tid t a now Hg) as (l1 & l2 & Hrows & Hrows').
  unfold Project_total_spent_time, Project_total_estimated_time,
    Project_task_count, Project_tasks.
  rewrite !or_zero_Sum, Hrows', Hrows.
  rewrite !project_sum_app, !project_sum_cons, !filter_app, !filter_cons.
  cbn [with_spent_time task_project spent_time estimated_time].
  destruct (decide (task_project t = project_id p));
    rewrite ?length_app; cbn [length]; split; [lia|split; [reflexivity|lia]
                                              |lia|split; [reflexivity|lia]].
Qed.

Lemma stop_timer_project_totals_witness :
  exists t b d,
    Task_get sample_db_active "t-1" = ok t /\
    data (fst (stop_timer (sample_db_active, ∅) (1000 + hour) "t-1"))
      = TimeEntryBody b /\
    data_duration b = Some d /\
    forall p,
      Project_total_spent_time
        (fst (snd (stop_timer (sample_db_active, ∅) (1000 + hour) "t-1"))) p
      = Project_total_spent_time sample_db_active p
        + (if decide (task_project t = project_id p) then d else 0) /\
      Project_task_count
        (fst (snd (stop_timer (sample_db_active, ∅) (1000 + hour) "t-1"))) p
      = Project_task_count sample_db_active p /\
      Project_total_estimated_time
        (fst (snd (stop_timer (sample_db_active, ∅) (1000 + hour) "t-1"))) p
      = Project_total_estimated_time sample_db_active p.
Proof.
  apply (stop_timer_project_totals sample_db_active ∅ (1000 + hour) "t-1"
           (fst (stop_timer (sample_db_active, ∅) (1000 + hour) "t-1"))
           (snd (stop_timer (sample_db_active, ∅) (1000 + hour) "t-1"))).
  - apply surjective_pairing.
  - vm_compute. reflexivity.
Defined.

(** ** Validation of a time entry *)

(** X16. [TimeEntrySerializer.validate] rejects, with "End time must be
    after start time.", exactly the attributes that carry both times with
    the end at or before the start, and returns all others unchanged; so an
    entry built from accepted attributes with both times gets a duration
    above zero when it is saved. *)
Theorem TimeEntrySerializer_validate_spec attrs :
  match TimeEntrySerializer_validate attrs with
  | inl message =>
      message = "End time must be after start time."%string /\
      exists st en, attrs_start_time attrs = Some st /\
                    attrs_end_time attrs = Some en /\ en <= st
  | inr attrs' =>
      attrs' = attrs /\
      forall st en,
        attrs_start_time attrs = Some st -> attrs_end_time attrs = Some en ->
        st < en /\
        forall id task dur,
          duration (TimeEntry_set_duration
                      (mkTimeEntry id task st (Some en) dur)) = Some (en - st) /\
          0 < en - st
  end.
Proof.
  unfold TimeEntrySerializer_validate.
  destruct (attrs_end_time attrs) as [en|] eqn:Ee;
    [destruct (attrs_start_time attrs) as [st|] eqn:Es|].
  - destruct (Z.leb_spec en st) as [Hle|Hlt].
    + split; [reflexivity|]. exists st, en. auto.
    + split; [reflexivity|]. intros st' en' [= <-] [= <-].
      split; [exact Hlt|]. intros id task dur. split; [reflexivity|lia].
  - split; [reflexivity|]. intros st' en' H. discriminate H.
  - split; [reflexivity|]. intros st' en' _ H. discriminate H.
Qed.

(** ** Creation of a task *)

Lemma Project_get_ok db id p :
  Project_get db id = ok p -> p ∈ projects db /\ project_id p = id.
Proof.
  unfold Project_get.
  destruct (filter _ (projects db)) as [|p0 [|p1 l]] eqn:E; try discriminate.
  unfold ok. intros [= ->].
  assert (Hin : p ∈ filter (fun p => project_id p = id) (projects db))
    by (rewrite E; left).
  apply list_elem_of_filter in Hin. tauto.
Qed.

Lemma Task_get_snoc db t :
  (forall r, r ∈ tasks db -> task_id r <> task_id t) ->
  Task_get (set_tasks db (tasks db ++ [t])) (task_id t) = ok t.
Proof.
  intros Hfresh. unfold Task_get. cbn [tasks set_tasks].
  rewrite filter_app, filter_cons_True, filter_nil by reflexivity.
  replace (filter _ (tasks db)) with (@nil Task); [reflexivity|].
  symmetry. induction (tasks db) as [|r l IH]; [reflexivity|].
  rewrite filter_cons_False by (apply Hfresh; left).
  apply IH. intros r' Hr'. apply Hfresh. right. exact Hr'.
Qed.

(** X17. Where every entry refers to a task that exists:
    [perform_create] for a project that does not exist raises the
    validation error "Project not found." on [project_id]; when it succeeds
    it appends one task, of the project asked for, with a spent time of
    zero and the status todo unless one is given, which has no active timer
    and on which a [start_timer] with a new primary key succeeds. *)
Theorem perform_create_spec db new_id validated_data :
  entries_reference_tasks db ->
  ((forall p, p ∈ projects db -> project_id p <> vd_project_id validated_data) ->
   perform_create db new_id validated_data
   = inl (ValidationError "project_id" "Project not found.")) /\
  (forall task db',
     perform_create db new_id validated_data = inr (task, db') ->
     task_id task = new_id /\
     task_project task = vd_project_id validated_data /\
     (exists p, p ∈ projects db /\ project_id p = task_project task) /\
     task_status task = default TODO (vd_status validated_data) /\
     spent_time task = 0 /\
     tasks db' = tasks db ++ [task] /\
     projects db' = projects db /\ time_entries db' = time_entries db /\
     Task_get db' new_id = ok task /\
     has_active_timer db' task = false /\
     forall c now entry_id',
       (forall e, e ∈ time_entries db -> entry_id e <> entry_id') ->
       status (fst (start_timer (db', c) now entry_id' new_id))
       = HTTP_201_CREATED).
Proof.
  intros Hfk. unfold perform_create. split.
  - intros Hnone. unfold Project_get.
    destruct (filter _ (projects db)) as [|p l] eqn:E; [reflexivity|].
    assert (Hin : p ∈ filter (fun p => project_id p = vd_project_id validated_data)
                       (projects db)) by (rewrite E; left).
    apply list_elem_of_filter in Hin as [Hid Hin]. destruct (Hnone p Hin Hid).
  - intros task db'.
    destruct (Project_get db (vd_project_id validated_data)) as [e|p] eqn:Ep;
      [destruct e; discriminate|].
    apply Project_get_ok in Ep as [Hp Hpid].
    case_bool_decide as Hex; [discriminate|].
    intros [= <- <-]. cbn [task_id task_project task_status spent_time].
    assert (Hfresh : forall r, r ∈ tasks db -> task_id r <> new_id).
    { intros r Hr Hid. apply Hex. apply Exists_exists. exists r. auto. }
    set (task := mkTask new_id _ _ _ _ _).
    assert (Hg : Task_get (set_tasks db (tasks db ++ [task])) new_id = ok task)
      by (apply (Task_get_snoc db task); exact Hfresh).
    assert (Hnoentry : forall e, e ∈ time_entries db -> entry_task e <> new_id).
    { intros e He Ht. specialize (Hfk e He). unfold task_exists in Hfk.
      apply bool_decide_eq_true_1 in Hfk.
      apply Exists_exists in Hfk as (r & Hr & Hid).
      apply (Hfresh r Hr). congruence. }
    split; [reflexivity|]. split; [exact Hpid|].
    split; [exists p; auto|]. split; [reflexivity|]. split; [reflexivity|].
    split; [reflexivity|]. split; [reflexivity|]. split; [reflexivity|].
    split; [exact Hg|]. split.
    + destruct (has_active_timer _ task) eqn:Ea; [|reflexivity].
      apply has_active_timer_true in Ea as (e & He & Ht & _).
      destruct (Hnoentry e He Ht).
    + intros c now entry_id' Hid.
      apply (start_timer_succeeds _ c now entry_id' new_id task Hg).
      * intros e He Ht. destruct (Hnoentry e He Ht).
      * exact Hid.
Qed.

Lemma perform_create_spec_witness :
  perform_create sample_db "t-2" (mkTaskData "p-404" "Layout" None None)
  = inl (ValidationError "project_id" "Project not found.") /\
  status (fst (start_timer
                 (set_tasks sample_db
                    (tasks sample_db ++
                     [mkTask "t-2" "p-1" "Layout" TODO hour 0]), ∅)
                 5000 "e-9" "t-2"))
  = HTTP_201_CREATED.
Proof.
  assert (Hfk : entries_reference_tasks sample_db)
    by (intros e He; inversion He).
  split.
  - apply (proj1 (perform_create_spec sample_db "t-2"
                    (mkTaskData "p-404" "Layout" None None) Hfk)).
    intros p Hp. apply list_elem_of_singleton in Hp as ->. discriminate.
  - apply (proj2 (perform_create_spec sample_db "t-2"
                    (mkTaskData "p-1" "Layout" None (Some hour)) Hfk)
             (mkTask "t-2" "p-1" "Layout" TODO hour 0) _ eq_refl).
    intros e He. inversion He.
Defined.

(** ** The answers of the timer views *)




(** ** Date ranges and the timers *)

Lemma entry_in_project_elem db p e :
  entry_in_project db p e <->
  (entry_task e, project_id p)
    ∈ (fun t => (task_id t, task_project t)) <$> tasks db.
Proof.
  unfold entry_in_project. rewrite Exists_exists, list_elem_of_fmap. split.
  - intros (t & Hin & <- & <-). exists t. auto.
  - intros (t & [= -> ->] & Hin). exists t. auto.
Qed.

Lemma fixed_part_keys db db' :
  task_fixed_part <$> tasks db' = task_fixed_part <$> tasks db ->
  (fun t => (task_id t, task_project t)) <$> tasks db'
  = (fun t => (task_id t, task_project t)) <$> tasks db.
Proof.
  intros H.
  apply (f_equal (fmap (fun x : UUID * UUID * string * Z => (x.1.1.1, x.1.1.2))))
    in H.
  rewrite <- !list_fmap_compose in H. exact H.
Qed.

Lemma fixed_part_ids db db' :
  task_fixed_part <$> tasks db' = task_fixed_part <$> tasks db ->
  task_id <$> tasks db' = task_id <$> tasks db.
Proof.
  intros H.
  apply (f_equal (fmap (fun x : UUID * UUID * string * Z => x.1.1.1))) in H.
  rewrite <- !list_fmap_compose in H. exact H.
Qed.

Lemma entry_in_project_fixed db db' p e :
  task_fixed_part <$> tasks db' = task_fixed_part <$> tasks db ->
  entry_in_project db' p e <-> entry_in_project db p e.
Proof.
  intros H. rewrite !entry_in_project_elem, (fixed_part_keys _ _ H). reflexivity.
Qed.

(** With unique keys, an entry of a task is in a project exactly when the
    task is. *)
Lemma entry_in_project_task db tid t p e :
  NoDup (task_id <$> tasks db) ->
  Task_get db tid = ok t -> entry_task e = tid ->
  entry_in_project db p e <-> task_project t = project_id p.
Proof.
  intros Hnd Hg He. pose proof (Task_get_id _ _ _ Hg) as Hid.
  pose proof (Task_get_elem _ _ _ Hg) as Hin.
  unfold entry_in_project. rewrite Exists_exists. split.
  - intros (t' & Hin' & Hid' & Hp).
    assert (t' = t); [|congruence].
    destruct (Task_get_split _ _ _ Hg) as (l1 & l2 & Hrows & H1 & H2).
    rewrite Hrows in Hin'.
    apply elem_of_app in Hin' as [Hin'|Hin'];
      [destruct (H1 t' Hin'); congruence|].
    apply elem_of_cons in Hin' as [->|Hin']; [reflexivity|].
    destruct (H2 t' Hin'); congruence.
  - intros Hp. exists t. split; [exact Hin|]. split; congruence.
Qed.

Lemma duration_sum_split (P : TimeEntry -> Prop) `{!forall e, Decision (P e)}
    (l1 l2 : list TimeEntry) (x : TimeEntry) :
  foldr Z.add 0 (omap duration (filter P (l1 ++ x :: l2)))
  = foldr Z.add 0 (omap duration (filter P l1))
    + (if decide (P x) then default 0 (duration x) else 0)
    + foldr Z.add 0 (omap duration (filter P l2)).
Proof.
  rewrite filter_app, filter_cons, omap_app, foldr_add_app.
  destruct (decide (P x)); [|lia].
  cbn [omap list_omap]. destruct (duration x); cbn; lia.
Qed.

Section RangeAndTimers.

Variable strptime_date : string -> option Z.
Variable date_of : datetime -> Z.

(** What the dashboard sums for a project under a date range, on the rows
    of the entry table. *)
Lemma project_entries_total_range db start_date end_date qs p :
  NoDup (task_id <$> tasks db) ->
  filter_entries strptime_date date_of db start_date end_date = inr qs ->
  or_zero (project_entries_total db qs p)
  = spec_range_total date_of db (parse_bound strptime_date start_date)
      (parse_bound strptime_date end_date) p.
Proof.
  intros Hnd Hf.
  pose proof (filter_entries_spec strptime_date date_of db start_date end_date)
    as Hqs.
  rewrite Hf in Hqs.
  rewrite (project_entries_total_filter _ _ _ Hnd), Hqs.
  unfold spec_range_total. rewrite list_filter_filter.
  f_equal. f_equal. apply list_filter_iff. intros e. tauto.
Qed.

(** The optional filters fail or not by the dates alone. *)
Lemma filter_entries_other db db' start_date end_date qs :
  filter_entries strptime_date date_of db start_date end_date = inr qs ->
  exists qs',
    filter_entries strptime_date date_of db' start_date end_date = inr qs'.
Proof.
  unfold filter_entries.
  destruct (truthy_value start_date) as [s|];
    [destruct (strptime_date s); [|discriminate]|];
    (destruct (truthy_value end_date) as [s'|];
     [destruct (strptime_date s'); [|discriminate]|]);
    intros _; eexists; reflexivity.
Qed.

Lemma spec_range_total_started db t new_id now lo hi p :
  spec_range_total date_of (started db t new_id now) lo hi p
  = spec_range_total date_of db lo hi p.
Proof.
  unfold spec_range_total. rewrite started_entries, filter_app.
  rewrite filter_cons_False by (cbn; tauto).
  rewrite filter_nil, app_nil_r. f_equal. f_equal.
  apply list_filter_iff. intros e.
  rewrite (entry_in_project_fixed db (started db t new_id now) p e
             (started_fixed_part db t new_id now)).
  reflexivity.
Qed.

Lemma spec_range_total_stopped db tid t a now lo hi p :
  NoDup (task_id <$> tasks db) ->
  unique_entry_ids (time_entries db) ->
  Task_get db tid = ok t -> active_timer db t = Some a ->
  spec_range_total date_of (stopped db t a now) lo hi p
  = spec_range_total date_of db lo hi p
    + (if decide (in_range lo hi (date_of (start_time a)) /\
                  task_project t = project_id p)
       then now - start_time a else 0).
Proof.
  intros Hndt Hnde Hg Ha.
  pose proof (active_timer_Some _ _ _ Ha) as (Hina & Hta & Hnone).
  rewrite (Task_get_id _ _ _ Hg) in Hta.
  unfold spec_range_total. rewrite stopped_entries.
  destruct (stopped_rows_split _ a now Hnde Hina) as (l1 & l2 & Hrows & ->).
  rewrite Hrows.
  rewrite (list_filter_iff
             (fun e => in_range lo hi (date_of (start_time e)) ∧
                       end_time e ≠ None ∧
                       entry_in_project (stopped db t a now) p e)
             (fun e => in_range lo hi (date_of (start_time e)) ∧
                       end_time e ≠ None ∧ entry_in_project db p e)); cycle 1.
  { intros e.
    rewrite (entry_in_project_fixed db (stopped db t a now) p e
               (stopped_fixed_part db t a now)).
    reflexivity. }
  rewrite !duration_sum_split.
  rewrite (decide_False (P := _ ∧ end_time a ≠ None ∧ _))
    by (rewrite Hnone; tauto).
  cbn [stopped_entry start_time end_time duration].
  pose proof (entry_in_project_task db tid t p (stopped_entry a now)
                Hndt Hg Hta) as Hproj.
  destruct (decide (in_range lo hi (date_of (start_time a)) /\
                    task_project t = project_id p)) as [[Hr Hp]|Hn].
  - rewrite decide_True
      by (split; [exact Hr|split; [discriminate|apply Hproj; exact Hp]]).
    cbv [default from_option id]. lia.
  - rewrite decide_False by (intros (Hr & _ & Hp); apply Hn; tauto). lia.
Qed.

(** X19. With unique primary keys, what the dashboard sums for a project
    under a date range is not changed by a successful [start_timer], and a
    successful [stop_timer] adds the stopped duration to it exactly when
    the task is of the project and the day the entry started lies within
    the range: an entry counts for the day it started on, and only once it
    is stopped. *)
Theorem range_total_after_timer db c now tid start_date end_date qs :
  NoDup (task_id <$> tasks db) ->
  unique_entry_ids (time_entries db) ->
  filter_entries strptime_date date_of db start_date end_date = inr qs ->
  (forall new_id r st',
     start_timer (db, c) now new_id tid = (r, st') ->
     status r = HTTP_201_CREATED ->
     exists qs',
       filter_entries strptime_date date_of (fst st') start_date end_date
       = inr qs' /\
       forall p, or_zero (project_entries_total (fst st') qs' p)
                 = or_zero (project_entries_total db qs p)) /\
  (forall r st',
     stop_timer (db, c) now tid = (r, st') ->
     status r = HTTP_200_OK ->
     exists t a qs',
       Task_get db tid = ok t /\ active_timer db t = Some a /\
       filter_entries strptime_date date_of (fst st') start_date end_date
       = inr qs' /\
       forall p,
         or_zero (project_entries_total (fst st') qs' p)
         = or_zero (project_entries_total db qs p)
           + (if decide (in_range (parse_bound strptime_date start_date)
                                  (parse_bound strptime_date end_date)
                                  (date_of (start_time a)) /\
                         task_project t = project_id p)
              then now - start_time a else 0)).
Proof.
  intros Hndt Hnde Hf. split.
  - intros new_id r st' H Hs.
    apply start_timer_started in H as (t & _ & _ & _ & _ & ->); [|exact Hs].
    cbn [fst].
    destruct (filter_entries_other db (started db t new_id now) _ _ _ Hf)
      as (qs' & Hf').
    exists qs'. split; [exact Hf'|]. intros p.
    rewrite (project_entries_total_range db _ _ _ p Hndt Hf).
    rewrite (project_entries_total_range (started db t new_id now)
               start_date end_date qs' p);
      [apply spec_range_total_started| |exact Hf'].
    rewrite (fixed_part_ids _ _ (started_fixed_part db t new_id now)).
    exact Hndt.
  - intros r st' H Hs.
    apply stop_timer_stopped_db in H as (t & a & Hg & Ha & _ & ->); [|exact Hs].
    cbn [fst].
    destruct (filter_entries_other db (stopped db t a now) _ _ _ Hf)
      as (qs' & Hf').
    exists t, a, qs'. split; [exact Hg|]. split; [exact Ha|].
    split; [exact Hf'|]. intros p.
    rewrite (project_entries_total_range db _ _ _ p Hndt Hf).
    rewrite (project_entries_total_range (stopped db t a now)
               start_date end_date qs' p);
      [apply (spec_range_total_stopped db tid); assumption| |exact Hf'].
    rewrite (fixed_part_ids _ _ (stopped_fixed_part db t a now)).
    exact Hndt.
Qed.

End RangeAndTimers.

Lemma range_total_after_timer_witness :
  let out := stop_timer (range_db, ∅) (day 20310 + 3 * hour) "t-1" in
  exists qs qs',
    filter_entries sample_strptime_date utc_date_of range_db
      (Some "2025-08-01"%string) (Some "2025-08-30"%string) = inr qs /\
    filter_entries sample_strptime_date utc_date_of (fst (snd out))
      (Some "2025-08-01"%string) (Some "2025-08-30"%string) = inr qs' /\
    or_zero (project_entries_total (fst (snd out)) qs' sample_project)
    = or_zero (project_entries_total range_db qs sample_project) + 3 * hour.
Proof.
  intros out.
  destruct (filter_entries sample_strptime_date utc_date_of range_db
              (Some "2025-08-01"%string) (Some "2025-08-30"%string))
    as [r|qs] eqn:Ef; [vm_compute in Ef; discriminate|].
  assert (Hndt : NoDup (task_id <$> tasks range_db))
    by (apply (bool_decide_eq_true_1 _); vm_compute; reflexivity).
  assert (Hnde : unique_entry_ids (time_entries range_db))
    by (apply (bool_decide_eq_true_1 _); vm_compute; reflexivity).
  destruct (proj2 (range_total_after_timer sample_strptime_date utc_date_of
                     range_db ∅ (day 20310 + 3 * hour) "t-1"
                     (Some "2025-08-01"%string) (Some "2025-08-30"%string)
                     qs Hndt Hnde Ef)
              (fst out) (snd out) (surjective_pairing _) eq_refl)
    as (t & a & qs' & Hg & Ha & Hf' & Htotal).
  exists qs, qs'. split; [reflexivity|]. split; [exact Hf'|].
  rewrite (Htotal sample_project). f_equal.
  vm_compute in Hg. injection Hg as <-.
  vm_compute in Ha. injection Ha as <-.
  vm_compute. reflexivity.
Defined.
